(** * Span admission and enrichment policy of the Http integration

    A shallow embedding of
    [packages/node-experimental/src/integrations/http.ts]: the [Http]
    integration class (constructor, [setupOnce], [_onSpanEnd],
    [_updateSentrySpan], [_addRequestBreadcrumb]), the two request filters
    handed to the instrumentation, and the helper [getHttpUrl].

    JavaScript objects with mutable fields are threaded explicitly: every
    method is a computation in the state monad [M] over a [Runtime] that
    holds the integration instance ([this]), the store of monitoring spans,
    the breadcrumb sink and a log of the calls made to the user's filter
    predicate. *)

From Stdlib Require Import ZArith String Ascii List Bool.
From stdpp Require Import base option list gmap strings.

(** ** JavaScript values *)

(** The values that reach this file: span attribute values (strings,
    numbers, booleans and arrays of them), [undefined], and the values put in
    span data and breadcrumb data. Numbers are modelled by [Z]: the only
    numbers this code handles are HTTP status codes. A [string] stands for a
    JavaScript string, one character per code unit. *)
#[warnings="-register-all"] Inductive JSValue : Type :=
| VUndefined
| VString (s : string)
| VNumber (n : Z)
| VBoolean (b : bool)
| VArray (items : list JSValue).

(** ToBoolean, as applied by [if (...)], [&&] and [!]. *)
Definition truthyString (s : string) : bool :=
  match s with
  | EmptyString => false
  | String _ _ => true
  end.

Definition truthy (v : JSValue) : bool :=
  match v with
  | VUndefined => false
  | VString s => truthyString s
  | VNumber n => negb (n =? 0)%Z
  | VBoolean b => b
  | VArray _ => true
  end.

(** [s.slice(start)] for [0 <= start]. *)
Fixpoint slice (start : nat) (s : string) : string :=
  match start, s with
  | O, _ => s
  | S _, EmptyString => EmptyString
  | S start', String _ rest => slice start' rest
  end.

(** A plain object literal, keys in insertion order. *)
Definition JSObject : Type := list (string * JSValue).

Fixpoint obj_set (key : string) (value : JSValue) (o : JSObject) : JSObject :=
  match o with
  | [] => [(key, value)]
  | (k, v) :: rest =>
      if decide (k = key) then (k, value) :: rest
      else (k, v) :: obj_set key value rest
  end.

Fixpoint obj_get (key : string) (o : JSObject) : option JSValue :=
  match o with
  | [] => None
  | (k, v) :: rest => if decide (k = key) then Some v else obj_get key rest
  end.

Definition Object_keys (o : JSObject) : list string := o.*1.

(** [{...target, ...source}]: every own key of [source] is set on [target]. *)
Definition obj_spread (target source : JSObject) : JSObject :=
  foldl (λ acc kv, obj_set kv.1 kv.2 acc) target source.

(** ** OpenTelemetry data *)

Module SemanticAttributes.
Definition HTTP_URL : string := "http.url".
Definition HTTP_STATUS_CODE : string := "http.status_code".
End SemanticAttributes.

Inductive SpanKind : Type :=
| INTERNAL | SERVER | CLIENT | PRODUCER | CONSUMER.

#[global] Instance SpanKind_eq_dec : EqDecision SpanKind.
Proof. solve_decision. Defined.

Record SpanContext : Type := {
  traceId : string;
  spanId : string
}.

Record OtelSpan : Type := {
  kind : SpanKind;
  attributes : gmap string JSValue;
  spanContext : SpanContext
}.

(** [attributes[key]]: a missing key reads as [undefined]. *)
Definition attr (attributes : gmap string JSValue) (key : string) : JSValue :=
  default VUndefined (attributes !! key).

(** [getHttpUrl], http.ts lines 224-227. *)
Definition getHttpUrl (attributes : gmap string JSValue) : option string :=
  match attr attributes SemanticAttributes.HTTP_URL with
  | VString url => Some url
  | _ => None
  end.

(** ** Node's http objects, as far as this file reads them *)

Record IncomingMessage : Type := {
  method : option string;
  statusCode : option Z
}.

Record ServerResponse : Type := {
  sr_statusCode : Z
}.

Record ClientRequest : Type := {
  cr_protocol : string;
  cr_host : string;
  cr_path : string
}.

(** [ClientRequest | IncomingMessage] *)
Inductive HttpRequest : Type :=
| OutgoingRequest (request : ClientRequest)
| IncomingRequest (request : IncomingMessage).

(** [IncomingMessage | ServerResponse] *)
Inductive HttpResponse : Type :=
| ClientResponse (response : IncomingMessage)
| ServerSideResponse (response : ServerResponse).

(** [response.statusCode] *)
Definition response_statusCode (response : HttpResponse) : JSValue :=
  match response with
  | ClientResponse m =>
      match statusCode m with
      | Some code => VNumber code
      | None => VUndefined
      end
  | ServerSideResponse r => VNumber (sr_statusCode r)
  end.

(** ** The monitoring SDK's objects *)

(** Modelled from the spec: the monitoring span of [@sentry/core] ([Span] and
    its subclass [Transaction]) is not among the sources. It carries an origin
    marker, tags and free-form data as two separate stores, and, when it is a
    transaction, metadata that can hold the raw request. *)
Record SentrySpan : Type := {
  origin : option string;
  tags : gmap string JSValue;
  data : gmap string JSValue;
  isTransaction : bool;
  metadata_request : option HttpRequest
}.

Definition set_origin (o : string) (s : SentrySpan) : SentrySpan :=
  {| origin := Some o; tags := tags s; data := data s;
     isTransaction := isTransaction s; metadata_request := metadata_request s |}.

Definition setMetadata (request : HttpRequest) (s : SentrySpan) : SentrySpan :=
  {| origin := origin s; tags := tags s; data := data s;
     isTransaction := isTransaction s; metadata_request := Some request |}.

Definition setTag (key : string) (value : JSValue) (s : SentrySpan) : SentrySpan :=
  {| origin := origin s; tags := <[key := value]> (tags s); data := data s;
     isTransaction := isTransaction s; metadata_request := metadata_request s |}.

Definition setData (key : string) (value : JSValue) (s : SentrySpan) : SentrySpan :=
  {| origin := origin s; tags := tags s; data := <[key := value]> (data s);
     isTransaction := isTransaction s; metadata_request := metadata_request s |}.

(** Modelled from the spec: the request record returned by
    [getRequestSpanData] ([../utils/getRequestSpanData], not among the
    sources): a [url] field and optional [http.query] and [http.fragment]
    string fields. *)
Record SanitizedRequestData : Type := {
  url : string;
  http_query : option string;
  http_fragment : option string
}.

(** The own enumerable properties of a request record, as [...data] copies
    them. *)
Definition record_entries (d : SanitizedRequestData) : JSObject :=
  [("url", VString (url d))]
  ++ match http_query d with Some q => [("http.query", VString q)] | None => [] end
  ++ match http_fragment d with Some f => [("http.fragment", VString f)] | None => [] end.

Record Breadcrumb : Type := {
  category : string;
  crumb_data : JSObject;
  type : string
}.

Record BreadcrumbHint : Type := {
  event : string;
  response : HttpResponse
}.

(** The client options; this file reads the deprecated
    [shouldCreateSpanForRequest] option and hands the whole object to the
    ambient tracing check. *)
Record ClientOptions : Type := {
  co_shouldCreateSpanForRequest : option (string → bool)
}.

(** A client: its options, and whether it offers the [on] hook method. *)
Record NodeExperimentalClient : Type := {
  getOptions : ClientOptions;
  has_on : bool
}.

(** [getCurrentHub()] *)
Record Hub : Type := {
  getClient : option NodeExperimentalClient
}.

(** ** The integration *)

Record TracingOptions : Type := {
  shouldCreateSpanForRequest : option (string → bool)
}.

(** [TracingOptions | boolean] *)
Inductive TracingSetting : Type :=
| TracingFlag (b : bool)
| TracingObject (o : TracingOptions).

Record HttpOptions : Type := {
  breadcrumbs : option bool;
  tracing : option TracingSetting
}.

Record Http : Type := {
  name : string;
  _unload : bool;
  _breadcrumbs : bool;
  _tracing : option bool;
  _shouldCreateSpans : bool;
  _shouldCreateSpanForRequest : option (string → bool)
}.

Definition Http_id : string := "Http".

(** [!!options.tracing] for a value that is not [undefined]. *)
Definition truthyTracing (t : TracingSetting) : bool :=
  match t with
  | TracingFlag b => b
  | TracingObject _ => true
  end.

(** The constructor, http.ts lines 67-76. *)
Definition constructor (options : HttpOptions) : Http :=
  {| name := Http_id;
     _unload := false;
     _breadcrumbs := match breadcrumbs options with
                     | None => true
                     | Some b => b
                     end;
     _tracing := match tracing options with
                 | None => None
                 | Some t => Some (truthyTracing t)
                 end;
     _shouldCreateSpans := false;
     _shouldCreateSpanForRequest :=
       match tracing options with
       | Some (TracingObject o) => shouldCreateSpanForRequest o
       | _ => None
       end |}.

(** The object handed to the span-end listener. *)
Record MutableOptions : Type := {
  drop : bool
}.

(** ** The runtime and its state monad *)

(** A method call on a monitoring span. *)
Inductive SpanCall : Type :=
| SetOrigin (o : string)
| SetMetadata (request : HttpRequest)
| SetTag (key : string) (value : JSValue)
| SetData (key : string) (value : JSValue).

Definition perform (c : SpanCall) (s : SentrySpan) : SentrySpan :=
  match c with
  | SetOrigin o => set_origin o s
  | SetMetadata request => setMetadata request s
  | SetTag key value => setTag key value s
  | SetData key value => setData key value s
  end.

(** Everything the methods read or change: the integration instance, the
    current hub, the event names the instance listens to on the client, the
    monitoring spans by span id, the calls made on them, the breadcrumbs handed
    to the hub, and the URLs the filter predicate was called with (both logs
    oldest first). *)
Record Runtime : Type := {
  this : Http;
  hub : Hub;
  listeners : list string;
  sentrySpans : gmap string SentrySpan;
  spanCalls : list (string * SpanCall);
  breadcrumbLog : list (Breadcrumb * BreadcrumbHint);
  predicateCalls : list string
}.

Definition M (A : Type) : Type := Runtime → A * Runtime.

#[global] Instance M_ret : MRet M := λ A a rt, (a, rt).
#[global] Instance M_bind : MBind M :=
  λ A B f m rt, let (a, rt') := m rt in f a rt'.

Definition gets {A : Type} (f : Runtime → A) : M A := λ rt, (f rt, rt).
Definition modify (f : Runtime → Runtime) : M unit := λ rt, (tt, f rt).

Definition with_this (f : Http → Http) (rt : Runtime) : Runtime :=
  {| this := f (this rt); hub := hub rt; listeners := listeners rt;
     sentrySpans := sentrySpans rt; spanCalls := spanCalls rt;
     breadcrumbLog := breadcrumbLog rt; predicateCalls := predicateCalls rt |}.

(** [array.forEach(f)] *)
Fixpoint forEach {A : Type} (l : list A) (f : A → M unit) : M unit :=
  match l with
  | [] => mret tt
  | x :: rest => f x ;; forEach rest f
  end.

(** [_INTERNAL_getSentrySpan(spanId)] *)
Definition _INTERNAL_getSentrySpan (id : string) : M (option SentrySpan) :=
  gets (λ rt, sentrySpans rt !! id).

(** A method call on the monitoring span found under [id]: the object is
    changed in place and the call is logged. *)
Definition call_span (id : string) (c : SpanCall) : M unit :=
  modify (λ rt,
    {| this := this rt; hub := hub rt; listeners := listeners rt;
       sentrySpans := alter (perform c) id (sentrySpans rt);
       spanCalls := spanCalls rt ++ [(id, c)];
       breadcrumbLog := breadcrumbLog rt; predicateCalls := predicateCalls rt |}).

(** [getCurrentHub().addBreadcrumb(breadcrumb, hint)] *)
Definition addBreadcrumb (b : Breadcrumb) (h : BreadcrumbHint) : M unit :=
  modify (λ rt,
    {| this := this rt; hub := hub rt; listeners := listeners rt;
       sentrySpans := sentrySpans rt; spanCalls := spanCalls rt;
       breadcrumbLog := breadcrumbLog rt ++ [(b, h)];
       predicateCalls := predicateCalls rt |}).

(** A call of the user's filter predicate: its answer, and the call logged. *)
Definition call_predicate (p : string → bool) (u : string) : M bool :=
  λ rt,
    (p u,
     {| this := this rt; hub := hub rt; listeners := listeners rt;
        sentrySpans := sentrySpans rt; spanCalls := spanCalls rt;
        breadcrumbLog := breadcrumbLog rt;
        predicateCalls := predicateCalls rt ++ [u] |}).

(** [client.on(eventName, handler)] *)
Definition client_on (eventName : string) : M unit :=
  modify (λ rt,
    {| this := this rt; hub := hub rt; listeners := listeners rt ++ [eventName];
       sentrySpans := sentrySpans rt; spanCalls := spanCalls rt;
       breadcrumbLog := breadcrumbLog rt; predicateCalls := predicateCalls rt |}).

(** ** The methods of the integration *)

(** [_onSpanEnd], http.ts lines 137-155. *)
Definition _onSpanEnd (otelSpan : OtelSpan) (mutableOptions : MutableOptions)
  : M MutableOptions :=
  shouldCreateSpans ← gets (λ rt, _shouldCreateSpans (this rt));
  if negb shouldCreateSpans then mret {| drop := true |}
  else
    shouldCreateSpanForRequest ← gets (λ rt, _shouldCreateSpanForRequest (this rt));
    match shouldCreateSpanForRequest with
    | Some predicate =>
        match getHttpUrl (attributes otelSpan) with
        | Some url =>
            if truthyString url then
              keep ← call_predicate predicate url;
              if negb keep then mret {| drop := true |} else mret mutableOptions
            else mret mutableOptions
        | None => mret mutableOptions
        end
    | None => mret mutableOptions
    end.

Section Collaborators.

(** Functions of other packages that the integration calls:
    [hasTracingEnabled] and [isSentryRequestUrl] of [@sentry/core],
    [getRequestUrl] and [getRequestSpanData] of [../utils] (an absent or
    [undefined] URL is [None]), and [String.prototype.toUpperCase]. *)
Variable hasTracingEnabled : option ClientOptions → bool.
Variable isSentryRequestUrl : string → Hub → bool.
Variable getRequestUrl : ClientRequest → option string.
Variable getRequestSpanData : OtelSpan → SanitizedRequestData.
Variable toUpperCase : string → string.

(** [ignoreOutgoingRequestHook], http.ts lines 96-99. *)
Definition ignoreOutgoingRequestHook (request : ClientRequest) : M bool :=
  match getRequestUrl request with
  | Some url =>
      if truthyString url then
        currentHub ← gets hub;
        mret (isSentryRequestUrl url currentHub)
      else mret false
  | None => mret false
  end.

(** [ignoreIncomingRequestHook], http.ts lines 101-109. *)
Definition ignoreIncomingRequestHook (request : IncomingMessage) : bool :=
  let method := toUpperCase <$> method request in
  if bool_decide (method = Some "OPTIONS") || bool_decide (method = Some "HEAD")
  then true
  else false.

(** [_updateSentrySpan], http.ts lines 158-195. *)
Definition _updateSentrySpan (span : OtelSpan) (request : HttpRequest) : M unit :=
  let data := getRequestSpanData span in
  let attributes := attributes span in
  let id := spanId (spanContext span) in
  sentrySpan ← _INTERNAL_getSentrySpan id;
  match sentrySpan with
  | None => mret tt
  | Some found =>
      call_span id (SetOrigin "auto.http.otel.http") ;;
      let additionalData : JSObject := [("url", VString (url data))] in
      (if isTransaction found && bool_decide (kind span = SERVER)
       then call_span id (SetMetadata request)
       else mret tt) ;;
      additionalData ←
        (if truthy (attr attributes SemanticAttributes.HTTP_STATUS_CODE) then
           let statusCode := attr attributes SemanticAttributes.HTTP_STATUS_CODE in
           call_span id (SetTag "http.status_code" statusCode) ;;
           mret (obj_set "http.response.status_code" statusCode additionalData)
         else mret additionalData);
      let additionalData :=
        match http_query data with
        | Some query =>
            if truthyString query
            then obj_set "http.query" (VString (slice 1 query)) additionalData
            else additionalData
        | None => additionalData
        end in
      let additionalData :=
        match http_fragment data with
        | Some fragment =>
            if truthyString fragment
            then obj_set "http.fragment" (VString (slice 1 fragment)) additionalData
            else additionalData
        | None => additionalData
        end in
      forEach (Object_keys additionalData) (λ prop,
        let value := default VUndefined (obj_get prop additionalData) in
        call_span id (SetData prop value))
  end.

(** [_addRequestBreadcrumb], http.ts lines 198-221. *)
Definition _addRequestBreadcrumb (span : OtelSpan) (response : HttpResponse) : M unit :=
  breadcrumbsEnabled ← gets (λ rt, _breadcrumbs (this rt));
  if negb breadcrumbsEnabled || bool_decide (kind span ≠ CLIENT) then mret tt
  else
    let data := getRequestSpanData span in
    addBreadcrumb
      {| category := "http";
         crumb_data :=
           obj_spread [("status_code", response_statusCode response)]
                      (record_entries data);
         type := "http" |}
      {| event := "response"; response := response |}.

(** [setupOnce], http.ts lines 81-128. Registering the instrumentation leaves
    the unload handle in [_unload]; its [requestHook] and [responseHook] are
    [_updateSentrySpan] and [_addRequestBreadcrumb]. *)
Definition setupOnce : M unit :=
  self ← gets this;
  if negb (_breadcrumbs self) && bool_decide (_tracing self = Some false) then mret tt
  else
    client ← gets (λ rt, getClient (hub rt));
    let clientOptions := getOptions <$> client in
    modify (with_this (λ h,
      {| name := name h; _unload := _unload h; _breadcrumbs := _breadcrumbs h;
         _tracing := _tracing h;
         _shouldCreateSpans :=
           match _tracing h with
           | None => hasTracingEnabled clientOptions
           | Some explicit => explicit
           end;
         _shouldCreateSpanForRequest := _shouldCreateSpanForRequest h |})) ;;
    modify (with_this (λ h,
      {| name := name h; _unload := true; _breadcrumbs := _breadcrumbs h;
         _tracing := _tracing h; _shouldCreateSpans := _shouldCreateSpans h;
         _shouldCreateSpanForRequest := _shouldCreateSpanForRequest h |})) ;;
    modify (with_this (λ h,
      {| name := name h; _unload := _unload h; _breadcrumbs := _breadcrumbs h;
         _tracing := _tracing h; _shouldCreateSpans := _shouldCreateSpans h;
         _shouldCreateSpanForRequest :=
           match _shouldCreateSpanForRequest h with
           | Some own => Some own
           | None => clientOptions ≫= co_shouldCreateSpanForRequest
           end |})) ;;
    match client with
    | Some c => if has_on c then client_on "otelSpanEnd" else mret tt
    | None => mret tt
    end.

(** [new Http(options)] becomes the instance the runtime holds. *)
Definition instantiate (options : HttpOptions) (rt : Runtime) : Runtime :=
  with_this (λ _, constructor options) rt.

(** The callbacks the host fires once the integration is set up. *)
Inductive Callback : Type :=
| OtelSpanEnd (otelSpan : OtelSpan) (mutableOptions : MutableOptions)
| RequestHook (span : OtelSpan) (request : HttpRequest)
| ResponseHook (span : OtelSpan) (response : HttpResponse).

Definition fire (c : Callback) : M unit :=
  match c with
  | OtelSpanEnd otelSpan mutableOptions =>
      _onSpanEnd otelSpan mutableOptions ;; mret tt
  | RequestHook span request => _updateSentrySpan span request
  | ResponseHook span response => _addRequestBreadcrumb span response
  end.

Definition fire_all (cs : list Callback) : M unit := forEach cs fire.

End Collaborators.

(** ** Collaborators for concrete runs *)

(** The suffix of [s] from the first occurrence of [c] on, [""] if there is
    none; and the prefix before it. *)
Fixpoint from_char (c : ascii) (s : string) : string :=
  match s with
  | EmptyString => EmptyString
  | String a rest => if Ascii.eqb a c then s else from_char c rest
  end.

Fixpoint before_char (c : ascii) (s : string) : string :=
  match s with
  | EmptyString => EmptyString
  | String a rest => if Ascii.eqb a c then EmptyString else String a (before_char c rest)
  end.

(** Modelled from the spec: the request record derived from a URL (the body
    of [getRequestSpanData] is not among the sources). It holds the URL, the
    query string and the fragment, each with its leading delimiter, and leaves
    out the ones the URL does not have. *)
Definition requestRecordOfUrl (u : string) : SanitizedRequestData :=
  let fragment := from_char "#" u in
  let query := from_char "?" (before_char "#" u) in
  {| url := u;
     http_query := if truthyString query then Some query else None;
     http_fragment := if truthyString fragment then Some fragment else None |}.

(** Modelled from the spec: [getRequestSpanData], the request record of a span,
    derived from its HTTP URL attribute (the empty URL when the span has
    none). *)
Definition getRequestSpanData_spec (span : OtelSpan) : SanitizedRequestData :=
  requestRecordOfUrl (default "" (getHttpUrl (attributes span))).

(** [toUpperCase] on ASCII letters, enough for HTTP method tokens. *)
Definition upper_ascii (a : ascii) : ascii :=
  let n := nat_of_ascii a in
  if (97 <=? n)%nat && (n <=? 122)%nat then ascii_of_nat (n - 32) else a.

Fixpoint toUpperCase_ascii (s : string) : string :=
  match s with
  | EmptyString => EmptyString
  | String a rest => String (upper_ascii a) (toUpperCase_ascii rest)
  end.

(** A runtime with nothing in it: no client, no spans, empty logs. *)
Definition empty_runtime (h : Http) : Runtime :=
  {| this := h; hub := {| getClient := None |}; listeners := [];
     sentrySpans := ∅; spanCalls := []; breadcrumbLog := []; predicateCalls := [] |}.

(** ** Observations on a runtime *)

(** What a key of a monitoring span's data store, or tag store, holds. *)
Definition span_data (rt : Runtime) (id key : string) : option JSValue :=
  s ← sentrySpans rt !! id; data s !! key.

Definition span_tag (rt : Runtime) (id key : string) : option JSValue :=
  s ← sentrySpans rt !! id; tags s !! key.

(** The calls made on monitoring spans while going from [rt] to [rt']. *)
Definition calls_since (rt rt' : Runtime) : list (string * SpanCall) :=
  skipn (length (spanCalls rt)) (spanCalls rt').

(** The breadcrumbs emitted while going from [rt] to [rt']. *)
Definition emitted_since (rt rt' : Runtime) : list Breadcrumb :=
  (skipn (length (breadcrumbLog rt)) (breadcrumbLog rt')).*1.

(** ** The calls [_updateSentrySpan] is expected to make *)

(** In source order: the origin, the request as metadata of a server
    transaction, the status-code tag, then one [setData] per key of
    [additionalData]. *)
Definition expected_span_calls (data : SanitizedRequestData) (span : OtelSpan)
    (request : HttpRequest) (found : SentrySpan) : list SpanCall :=
  let statusCode := attr (attributes span) SemanticAttributes.HTTP_STATUS_CODE in
  [SetOrigin "auto.http.otel.http"]
  ++ (if isTransaction found && bool_decide (kind span = SERVER)
      then [SetMetadata request] else [])
  ++ (if truthy statusCode then [SetTag "http.status_code" statusCode] else [])
  ++ [SetData "url" (VString (url data))]
  ++ (if truthy statusCode
      then [SetData "http.response.status_code" statusCode] else [])
  ++ match http_query data with
     | Some query =>
         if truthyString query then [SetData "http.query" (VString (slice 1 query))] else []
     | None => []
     end
  ++ match http_fragment data with
     | Some fragment =>
         if truthyString fragment
         then [SetData "http.fragment" (VString (slice 1 fragment))] else []
     | None => []
     end.

(** A run of calls on the monitoring span found under [id]. *)
Definition perform_all (id : string) (cs : list SpanCall) : M unit :=
  forEach cs (call_span id).

(** ** The drop condition in the specification's words *)

(** The span-end decision as the specification words it: tracing is off, or a
    filter predicate is configured, the URL attribute is present and the
    predicate answers false for it. *)
Definition claimed_drop_condition (h : Http) (otelSpan : OtelSpan) : Prop :=
  _shouldCreateSpans h = false ∨
  ∃ predicate u,
    _shouldCreateSpanForRequest h = Some predicate ∧
    attributes otelSpan !! SemanticAttributes.HTTP_URL = Some (VString u) ∧
    predicate u = false.

(** The status-code enrichment as the specification words it: whenever the
    attribute is there, its value ends up in the data store and in the tags. *)
Definition claimed_status_written (rt' : Runtime) (span : OtelSpan) : Prop :=
  ∀ v, attributes span !! SemanticAttributes.HTTP_STATUS_CODE = Some v →
    span_data rt' (spanId (spanContext span)) "http.response.status_code" = Some v ∧
    span_tag rt' (spanId (spanContext span)) "http.status_code" = Some v.

(** ** Concrete inputs *)

Definition span_with (k : SpanKind) (attrs : gmap string JSValue) : OtelSpan :=
  {| kind := k; attributes := attrs;
     spanContext := {| traceId := "trace-1"; spanId := "span-1" |} |}.

Definition reject_all : string → bool := λ _, false.

(** An instance set up with [{tracing: {shouldCreateSpanForRequest: reject_all}}]
    while the ambient check says that tracing is off. *)
Definition filtering_runtime : Runtime :=
  (setupOnce (λ _, false)
     (empty_runtime
        (constructor
           {| breadcrumbs := None;
              tracing := Some (TracingObject
                {| shouldCreateSpanForRequest := Some reject_all |}) |}))).2.

Definition empty_url_span : OtelSpan :=
  span_with CLIENT {[ SemanticAttributes.HTTP_URL := VString "" ]}.

Definition healthz_span : OtelSpan :=
  span_with CLIENT {[ SemanticAttributes.HTTP_URL := VString "http://svc/healthz" ]}.

Definition blank_span : SentrySpan :=
  {| origin := None; tags := ∅; data := ∅; isTransaction := false;
     metadata_request := None |}.

(** A runtime in which the monitoring SDK tracks the span ["span-1"]. *)
Definition tracking_runtime : Runtime :=
  {| this := constructor {| breadcrumbs := None; tracing := None |};
     hub := {| getClient := None |}; listeners := [];
     sentrySpans := {[ "span-1" := blank_span ]};
     spanCalls := []; breadcrumbLog := []; predicateCalls := [] |}.

Definition query_span : OtelSpan :=
  span_with CLIENT
    {[ SemanticAttributes.HTTP_URL := VString "http://svc/items?a=1" ]}.

Definition fragment_span : OtelSpan :=
  span_with CLIENT
    {[ SemanticAttributes.HTTP_URL := VString "http://svc/items#top" ]}.

Definition get_request : HttpRequest :=
  IncomingRequest {| method := Some "GET"; statusCode := None |}.

Definition zero_status_span : OtelSpan :=
  span_with CLIENT {[ SemanticAttributes.HTTP_STATUS_CODE := VNumber 0 ]}.

Definition ok_status_span : OtelSpan :=
  span_with CLIENT {[ SemanticAttributes.HTTP_STATUS_CODE := VNumber 200 ]}.

(** The end-to-end scenario of the specification: an instance configured with
    [{breadcrumbs: true, tracing: true}] and set up, a CLIENT span for
    [http://api.example.com/path?x=1#frag], and a response with status 200. *)
Definition example_url : string := "http://api.example.com/path?x=1#frag".

Definition example_options : HttpOptions :=
  {| breadcrumbs := Some true; tracing := Some (TracingFlag true) |}.

Definition example_span : OtelSpan :=
  span_with CLIENT {[ SemanticAttributes.HTTP_URL := VString example_url ]}.

Definition example_response : HttpResponse :=
  ClientResponse {| method := None; statusCode := Some 200%Z |}.

Definition example_setup : Runtime :=
  (setupOnce (λ _, false) (empty_runtime (constructor example_options))).2.

(** The breadcrumb data the specification expects in that scenario. *)
Definition claimed_example_data : JSObject :=
  [("status_code", VNumber 200); ("url", VString example_url);
   ("http.query", VString "x=1"); ("http.fragment", VString "frag")].

Definition server_span : OtelSpan :=
  span_with SERVER {[ SemanticAttributes.HTTP_URL := VString example_url ]}.

Definition options_request : IncomingMessage :=
  {| method := Some "options"; statusCode := None |}.

Definition some_client_request : ClientRequest :=
  {| cr_protocol := "http:"; cr_host := "svc"; cr_path := "/items" |}.

(** ** Further methods and observations *)

(** [unregister], http.ts lines 133-135: the unload handle is invoked when the
    instance has one. The result tells whether it was invoked. *)
Definition unregister : M bool :=
  unloadHandle ← gets (λ rt, _unload (this rt));
  (if unloadHandle : bool then mret true else mret false) : M bool.

(** The URLs the filter predicate was called with while going from [rt] to
    [rt']. *)
Definition predicate_calls_since (rt rt' : Runtime) : list string :=
  skipn (length (predicateCalls rt)) (predicateCalls rt').

(** The keys of the [setData] calls in a log of span calls, in order. *)
Definition data_keys (cs : list (string * SpanCall)) : list string :=
  omap (λ ic, match ic.2 with SetData key _ => Some key | _ => None end) cs.

(** The guard at the head of [setupOnce]: nothing to track. *)
Definition nothing_to_track (h : Http) : bool :=
  negb (_breadcrumbs h) && bool_decide (_tracing h = Some false).

(** More concrete inputs. *)
Definition number_url_span : OtelSpan :=
  span_with CLIENT {[ SemanticAttributes.HTTP_URL := VNumber 42 ]}.

Definition all_off_options : HttpOptions :=
  {| breadcrumbs := Some false; tracing := Some (TracingFlag false) |}.

Definition hooked_client : NodeExperimentalClient :=
  {| getOptions := {| co_shouldCreateSpanForRequest := None |}; has_on := true |}.

(** A runtime whose hub has a client that offers [on]. *)
Definition client_runtime (h : Http) : Runtime :=
  {| this := h; hub := {| getClient := Some hooked_client |}; listeners := [];
     sentrySpans := ∅; spanCalls := []; breadcrumbLog := []; predicateCalls := [] |}.

(** A response callback for a CLIENT span, the only kind that can emit a
    breadcrumb. *)
Definition is_client_response (c : Callback) : bool :=
  match c with
  | ResponseHook span _ => bool_decide (kind span = CLIENT)
  | _ => false
  end.

Definition client_responses (cs : list Callback) : nat :=
  length (List.filter is_client_response cs).

Definition tracked_transaction_runtime : Runtime :=
  {| this := constructor {| breadcrumbs := None; tracing := None |};
     hub := {| getClient := None |}; listeners := [];
     sentrySpans :=
       {[ "span-1" := {| origin := None; tags := ∅; data := ∅;
                         isTransaction := true; metadata_request := None |} ]};
     spanCalls := []; breadcrumbLog := []; predicateCalls := [] |}.

Definition tracing_off_runtime : Runtime :=
  (setupOnce (λ _, true)
     (empty_runtime
        (constructor {| breadcrumbs := None; tracing := Some (TracingFlag false) |}))).2.

Definition example_run : list Callback :=
  [RequestHook example_span get_request;
   ResponseHook example_span example_response;
   OtelSpanEnd example_span {| drop := false |}].

(** What a run of callbacks may do to the runtime: the instance, the hub, the
    listeners and the set of tracked spans stay; the three logs grow at the end,
    the breadcrumb log by [crumbs] entries when breadcrumbs are enabled and by
    none otherwise, the predicate log by non-empty URLs only, and by nothing
    when the resolved tracing flag is off. *)
Definition callback_effect (crumbs : nat) (rt rt' : Runtime) : Prop :=
  this rt' = this rt ∧ hub rt' = hub rt ∧ listeners rt' = listeners rt
  ∧ dom (sentrySpans rt') = dom (sentrySpans rt)
  ∧ (∃ k, spanCalls rt' = spanCalls rt ++ k)
  ∧ (∃ k, breadcrumbLog rt' = breadcrumbLog rt ++ k
          ∧ length k = if _breadcrumbs (this rt) then crumbs else 0)
  ∧ (∃ k, predicateCalls rt' = predicateCalls rt ++ k
          ∧ Forall (λ u, u ≠ "") k
          ∧ (_shouldCreateSpans (this rt) = false → k = [])).

Definition filtering_client : NodeExperimentalClient :=
  {| getOptions := {| co_shouldCreateSpanForRequest := Some reject_all |};
     has_on := true |}.

(** * Properties *)

(** ** Span admission: [_onSpanEnd] *)

Lemma getHttpUrl_Some (attrs : gmap string JSValue) (u : string) :
  getHttpUrl attrs = Some u ↔
  attrs !! SemanticAttributes.HTTP_URL = Some (VString u).
Proof.
  unfold getHttpUrl, attr.
  destruct (attrs !! SemanticAttributes.HTTP_URL) as [[]|]; simpl;
    split; intros H; try discriminate; congruence.
Qed.

Lemma truthyString_true (s : string) : truthyString s = true ↔ s ≠ "".
Proof. destruct s; simpl; split; intros; congruence. Qed.

(** [_onSpanEnd] branch by branch. *)
Lemma onSpanEnd_cases (otelSpan : OtelSpan) (o : MutableOptions) (rt : Runtime) :
  _onSpanEnd otelSpan o rt =
  if negb (_shouldCreateSpans (this rt)) then ({| drop := true |}, rt)
  else match _shouldCreateSpanForRequest (this rt), getHttpUrl (attributes otelSpan) with
       | Some predicate, Some u =>
           if truthyString u then
             (if negb (predicate u) then {| drop := true |} else o,
              (call_predicate predicate u rt).2)
           else (o, rt)
       | _, _ => (o, rt)
       end.
Proof.
  unfold _onSpanEnd, mbind, M_bind, mret, M_ret, gets; simpl.
  destruct (_shouldCreateSpans (this rt)); simpl; [|done].
  destruct (_shouldCreateSpanForRequest (this rt)) as [predicate|]; [|done].
  destruct (getHttpUrl (attributes otelSpan)) as [u|]; [|done].
  destruct (truthyString u); [|done].
  simpl. by destruct (predicate u).
Qed.

Lemma onSpanEnd_this (otelSpan : OtelSpan) (o : MutableOptions) (rt : Runtime) :
  this (_onSpanEnd otelSpan o rt).2 = this rt.
Proof.
  rewrite onSpanEnd_cases.
  destruct (negb _); [done|].
  destruct (_shouldCreateSpanForRequest _); [|done].
  destruct (getHttpUrl _); [|done].
  by destruct (truthyString _).
Qed.

(** When [_onSpanEnd] turns [drop] on. *)
Lemma onSpanEnd_drops (rt : Runtime) (otelSpan : OtelSpan) :
  drop (_onSpanEnd otelSpan {| drop := false |} rt).1 = true ↔
  _shouldCreateSpans (this rt) = false ∨
  ∃ predicate u,
    _shouldCreateSpanForRequest (this rt) = Some predicate ∧
    attributes otelSpan !! SemanticAttributes.HTTP_URL = Some (VString u) ∧
    u ≠ "" ∧ predicate u = false.
Proof.
  rewrite onSpanEnd_cases.
  destruct (_shouldCreateSpans (this rt)) eqn:Hon; simpl; [|split; [by left|done]].
  destruct (_shouldCreateSpanForRequest (this rt)) as [predicate|] eqn:Hp.
  - destruct (getHttpUrl (attributes otelSpan)) as [u|] eqn:Hu.
    + apply getHttpUrl_Some in Hu.
      destruct (truthyString u) eqn:Ht.
      * apply truthyString_true in Ht.
        destruct (predicate u) eqn:Hk; simpl; split.
        -- discriminate.
        -- intros [?|(q & u' & Hq & Hu' & _ & Hk')]; [done|]. congruence.
        -- intros _. right. by exists predicate, u.
        -- done.
      * split; [done|].
        intros [?|(q & u' & Hq & Hu' & Hne & _)]; [done|].
        assert (u' = u) by congruence. subst u'.
        apply truthyString_true in Hne. congruence.
    + split; [done|].
      intros [?|(q & u' & _ & Hu' & _)]; [done|].
      apply getHttpUrl_Some in Hu'. congruence.
  - split; [done|].
    intros [?|(q & u' & Hq & _)]; done.
Qed.

(** When [_onSpanEnd] leaves the filter predicate alone. *)
Lemma onSpanEnd_no_call (rt : Runtime) (otelSpan : OtelSpan) (o : MutableOptions) :
  (∀ u, attributes otelSpan !! SemanticAttributes.HTTP_URL = Some (VString u) → u = "") →
  predicateCalls (_onSpanEnd otelSpan o rt).2 = predicateCalls rt.
Proof.
  intros Hempty. rewrite onSpanEnd_cases.
  destruct (negb _); [done|].
  destruct (_shouldCreateSpanForRequest (this rt)) as [predicate|]; [|done].
  destruct (getHttpUrl (attributes otelSpan)) as [u|] eqn:Hu; [|done].
  apply getHttpUrl_Some, Hempty in Hu. by subst u.
Qed.

(** C1, as amended: starting from [drop = false], [_onSpanEnd] leaves
    [drop = true] exactly when the resolved tracing flag is false, or a filter
    predicate is configured, the span's HTTP URL attribute is a non-empty string
    and the predicate answers false for it. When the URL attribute is absent,
    not a string or empty, the predicate is not called. *)
Theorem onSpanEnd_drop_iff (rt : Runtime) (otelSpan : OtelSpan) :
  let result := _onSpanEnd otelSpan {| drop := false |} rt in
  (drop result.1 = true ↔
     _shouldCreateSpans (this rt) = false ∨
     ∃ predicate u,
       _shouldCreateSpanForRequest (this rt) = Some predicate ∧
       attributes otelSpan !! SemanticAttributes.HTTP_URL = Some (VString u) ∧
       u ≠ "" ∧ predicate u = false)
  ∧ ((∀ u, attributes otelSpan !! SemanticAttributes.HTTP_URL = Some (VString u) → u = "") →
     predicateCalls result.2 = predicateCalls rt).
Proof.
  intros result. subst result. split.
  - apply onSpanEnd_drops.
  - apply onSpanEnd_no_call.
Qed.

Lemma onSpanEnd_drop_iff_witness :
  drop (_onSpanEnd healthz_span {| drop := false |} filtering_runtime).1 = true
  ∧ predicateCalls (_onSpanEnd empty_url_span {| drop := false |} filtering_runtime).2
    = predicateCalls filtering_runtime.
Proof.
  split.
  - apply (onSpanEnd_drop_iff filtering_runtime healthz_span).
    right. exists reject_all, "http://svc/healthz".
    split; [reflexivity|]. split; [reflexivity|]. split; [discriminate|reflexivity].
  - apply (onSpanEnd_drop_iff filtering_runtime empty_url_span).
    intros u Hu. vm_compute in Hu. congruence.
Defined.

(** C1, as worded, fails for an empty URL: the predicate is configured, the URL
    attribute is present and the predicate would answer false for it, yet the
    span is kept. *)
Lemma onSpanEnd_empty_url_not_dropped :
  ¬ (drop (_onSpanEnd empty_url_span {| drop := false |} filtering_runtime).1 = true
     ↔ claimed_drop_condition (this filtering_runtime) empty_url_span).
Proof.
  intros [_ Hdrop].
  assert (claimed_drop_condition (this filtering_runtime) empty_url_span) as Hc.
  { right. exists reject_all, "". split; [reflexivity|]. split; reflexivity. }
  apply Hdrop in Hc. vm_compute in Hc. discriminate.
Qed.

(** C9: with tracing enabled and a filter predicate configured, a span whose
    HTTP URL attribute is the empty string goes through [_onSpanEnd] without a
    call of the predicate and with [drop] untouched, so a span that came in with
    [drop = false] is kept. *)
Theorem onSpanEnd_empty_url_kept
    (rt : Runtime) (otelSpan : OtelSpan) (o : MutableOptions) (predicate : string → bool) :
  _shouldCreateSpans (this rt) = true →
  _shouldCreateSpanForRequest (this rt) = Some predicate →
  attributes otelSpan !! SemanticAttributes.HTTP_URL = Some (VString "") →
  let result := _onSpanEnd otelSpan o rt in
  drop result.1 = drop o
  ∧ predicateCalls result.2 = predicateCalls rt
  ∧ result = (o, rt).
Proof.
  intros Hon Hp Hu result. subst result.
  apply getHttpUrl_Some in Hu.
  rewrite onSpanEnd_cases, Hon, Hp, Hu. done.
Qed.

Lemma onSpanEnd_empty_url_kept_witness :
  drop (_onSpanEnd empty_url_span {| drop := false |} filtering_runtime).1 = false
  ∧ predicateCalls (_onSpanEnd empty_url_span {| drop := false |} filtering_runtime).2 = [].
Proof.
  destruct (onSpanEnd_empty_url_kept filtering_runtime empty_url_span
              {| drop := false |} reject_all) as (Hd & Hc & _);
    [reflexivity | reflexivity | reflexivity |].
  split; [exact Hd | exact Hc].
Defined.

(** ** Setup: [constructor] and [setupOnce] *)

Section Setup.

Variable hasTracingEnabled : option ClientOptions → bool.

(** The instance that [setupOnce] leaves behind. *)
Lemma setupOnce_this (rt : Runtime) :
  this (setupOnce hasTracingEnabled rt).2 =
  if negb (_breadcrumbs (this rt)) && bool_decide (_tracing (this rt) = Some false)
  then this rt
  else
    let clientOptions := getOptions <$> getClient (hub rt) in
    {| name := name (this rt); _unload := true;
       _breadcrumbs := _breadcrumbs (this rt); _tracing := _tracing (this rt);
       _shouldCreateSpans :=
         match _tracing (this rt) with
         | None => hasTracingEnabled clientOptions
         | Some explicit => explicit
         end;
       _shouldCreateSpanForRequest :=
         match _shouldCreateSpanForRequest (this rt) with
         | Some own => Some own
         | None => clientOptions ≫= co_shouldCreateSpanForRequest
         end |}.
Proof.
  unfold setupOnce, mbind, M_bind, mret, M_ret, gets, modify; simpl.
  destruct (negb _ && _); [done|]. simpl.
  destruct (getClient (hub rt)) as [c|]; [|done].
  by destruct (has_on c).
Qed.

(** The tracing flag that [setupOnce] resolves for a fresh instance. *)
Lemma setupOnce_resolves (options : HttpOptions) (rt0 : Runtime) :
  _shouldCreateSpans (this (setupOnce hasTracingEnabled (instantiate options rt0)).2) =
  match _tracing (constructor options) with
  | None => hasTracingEnabled (getOptions <$> getClient (hub rt0))
  | Some explicit => explicit
  end.
Proof.
  rewrite setupOnce_this. simpl.
  destruct (breadcrumbs options) as [[]|], (tracing options) as [[[]|]|]; done.
Qed.

End Setup.

(** ** What the callbacks leave alone *)

Lemma forEach_this {A : Type} (f : A → M unit) (l : list A) :
  (∀ x rt, this (f x rt).2 = this rt) →
  ∀ rt, this (forEach l f rt).2 = this rt.
Proof.
  intros Hf. induction l as [|x l IH]; intros rt; [done|].
  simpl. unfold mbind, M_bind.
  destruct (f x rt) as [u rt1] eqn:E.
  rewrite IH. by rewrite <- (Hf x rt), E.
Qed.

(** A run of calls on one span: the calls are logged in order, the span is
    altered by each in turn, and nothing else moves. *)
Lemma perform_all_spec (id : string) (cs : list SpanCall) (rt : Runtime) :
  perform_all id cs rt =
  (tt,
   {| this := this rt; hub := hub rt; listeners := listeners rt;
      sentrySpans := alter (λ s, foldl (λ s c, perform c s) s cs) id (sentrySpans rt);
      spanCalls := spanCalls rt ++ ((id ,.) <$> cs);
      breadcrumbLog := breadcrumbLog rt; predicateCalls := predicateCalls rt |}).
Proof.
  unfold perform_all. revert rt.
  induction cs as [|c cs IH]; intros rt.
  - simpl. unfold mret, M_ret. f_equal.
    destruct rt; simpl. f_equal.
    + symmetry. by apply alter_id.
    + by rewrite app_nil_r.
  - simpl. unfold mbind, M_bind. simpl. rewrite IH. simpl. f_equal. f_equal.
    + by rewrite alter_alter_eq.
    + by rewrite <- app_assoc.
Qed.

(** ** Enrichment: [_updateSentrySpan] *)

Section Enrichment.

Variable getRequestSpanData : OtelSpan → SanitizedRequestData.

(** With a monitoring span at hand, [_updateSentrySpan] makes exactly the
    expected calls on it, in order. *)
Lemma updateSentrySpan_found
    (span : OtelSpan) (request : HttpRequest) (rt : Runtime) (found : SentrySpan) :
  sentrySpans rt !! spanId (spanContext span) = Some found →
  _updateSentrySpan getRequestSpanData span request rt =
  perform_all (spanId (spanContext span))
    (expected_span_calls (getRequestSpanData span) span request found) rt.
Proof.
  intros Hfound.
  unfold _updateSentrySpan, expected_span_calls, _INTERNAL_getSentrySpan.
  unfold mbind at 1. unfold M_bind at 1. unfold gets at 1. rewrite Hfound.
  destruct (isTransaction found && bool_decide (kind span = SERVER));
    destruct (truthy (attr (attributes span) SemanticAttributes.HTTP_STATUS_CODE));
    destruct (http_query (getRequestSpanData span)) as [[|qa q]|];
    destruct (http_fragment (getRequestSpanData span)) as [[|fa f]|];
    reflexivity.
Qed.

Lemma updateSentrySpan_this (span : OtelSpan) (request : HttpRequest) (rt : Runtime) :
  this (_updateSentrySpan getRequestSpanData span request rt).2 = this rt.
Proof.
  destruct (sentrySpans rt !! spanId (spanContext span)) as [found|] eqn:Hfound.
  - rewrite (updateSentrySpan_found _ _ _ _ Hfound), perform_all_spec. done.
  - unfold _updateSentrySpan, _INTERNAL_getSentrySpan, mbind, M_bind, gets.
    by rewrite Hfound.
Qed.

(** C7: when no monitoring span is registered under the span's id,
    [_updateSentrySpan] returns normally and leaves the whole runtime as it
    was: no origin, metadata, tag or data is written, on any span. *)
Theorem updateSentrySpan_not_found
    (span : OtelSpan) (request : HttpRequest) (rt : Runtime) :
  sentrySpans rt !! spanId (spanContext span) = None →
  _updateSentrySpan getRequestSpanData span request rt = (tt, rt)
  ∧ calls_since rt (_updateSentrySpan getRequestSpanData span request rt).2 = [].
Proof.
  intros Hnone.
  assert (_updateSentrySpan getRequestSpanData span request rt = (tt, rt)) as ->.
  { unfold _updateSentrySpan, _INTERNAL_getSentrySpan, mbind, M_bind, gets.
    by rewrite Hnone. }
  split; [done|]. unfold calls_since. simpl. apply skipn_all.
Qed.

(** The log and the span once [_updateSentrySpan] is done. *)
Lemma updateSentrySpan_effect
    (span : OtelSpan) (request : HttpRequest) (rt : Runtime) (found : SentrySpan) :
  sentrySpans rt !! spanId (spanContext span) = Some found →
  let rt' := (_updateSentrySpan getRequestSpanData span request rt).2 in
  let calls := expected_span_calls (getRequestSpanData span) span request found in
  calls_since rt rt' = (spanId (spanContext span) ,.) <$> calls
  ∧ sentrySpans rt' !! spanId (spanContext span)
    = Some (foldl (λ s c, perform c s) found calls).
Proof.
  intros Hfound rt' calls. subst rt' calls.
  rewrite (updateSentrySpan_found _ _ _ _ Hfound), perform_all_spec. simpl.
  split.
  - unfold calls_since. simpl. apply drop_app_length.
  - by rewrite lookup_alter_eq, Hfound.
Qed.

Lemma elem_of_tagged_calls (id i : string) (c : SpanCall) (cs : list SpanCall) :
  (i, c) ∈ ((id ,.) <$> cs) ↔ i = id ∧ c ∈ cs.
Proof.
  rewrite list_elem_of_fmap. split.
  - intros (c' & [= -> ->] & Hin). done.
  - intros [-> Hin]. by exists c.
Qed.

(** Cases of the guards in [_updateSentrySpan], then list membership. *)
Ltac enrichment_cases found span data :=
  unfold expected_span_calls;
  destruct (isTransaction found && bool_decide (kind span = SERVER));
  destruct (truthy (attr (attributes span) SemanticAttributes.HTTP_STATUS_CODE));
  destruct (http_query data) as [[|? ?]|];
  destruct (http_fragment data) as [[|? ?]|];
  simpl.

Ltac membership :=
  repeat (rewrite ?elem_of_cons, ?elem_of_nil);
  intuition (subst; congruence).

(** C4: with a monitoring span at hand, a non-empty [http.query] of the request
    record, first character [c] followed by [rest], is written to the span's
    data under [http.query] as [rest], the value without its first character
    (["?a=1"] becomes ["a=1"]), and that is the only value written under this
    key; the same for [http.fragment]; and a record without a fragment leads to
    no write under [http.fragment] at all. *)
Theorem updateSentrySpan_strips_delimiter
    (span : OtelSpan) (request : HttpRequest) (rt : Runtime) (found : SentrySpan) :
  sentrySpans rt !! spanId (spanContext span) = Some found →
  let id := spanId (spanContext span) in
  let rt' := (_updateSentrySpan getRequestSpanData span request rt).2 in
  (∀ c rest, http_query (getRequestSpanData span) = Some (String c rest) →
     span_data rt' id "http.query" = Some (VString rest)
     ∧ ∀ v, (id, SetData "http.query" v) ∈ calls_since rt rt'
            ↔ v = VString rest)
  ∧ (∀ c rest, http_fragment (getRequestSpanData span) = Some (String c rest) →
     span_data rt' id "http.fragment" = Some (VString rest)
     ∧ ∀ v, (id, SetData "http.fragment" v) ∈ calls_since rt rt'
            ↔ v = VString rest)
  ∧ (http_fragment (getRequestSpanData span) = None →
     ∀ i v, (i, SetData "http.fragment" v) ∉ calls_since rt rt').
Proof.
  intros Hfound id rt'.
  destruct (updateSentrySpan_effect span request rt found Hfound) as [Hcalls Hspan].
  fold id rt' in Hcalls, Hspan.
  unfold span_data. rewrite Hcalls, Hspan. clear Hcalls Hspan.
  split; [|split].
  - intros c rest Hq. split.
    + revert Hq. enrichment_cases found span (getRequestSpanData span);
        intros [= <- <-]; by simplify_map_eq.
    + intros v. rewrite elem_of_tagged_calls.
      revert Hq. enrichment_cases found span (getRequestSpanData span);
        intros [= <- <-]; membership.
  - intros c rest Hf. split.
    + revert Hf. enrichment_cases found span (getRequestSpanData span);
        intros [= <- <-]; by simplify_map_eq.
    + intros v. rewrite elem_of_tagged_calls.
      revert Hf. enrichment_cases found span (getRequestSpanData span);
        intros [= <- <-]; membership.
  - intros Hf i v. rewrite elem_of_tagged_calls.
    revert Hf. enrichment_cases found span (getRequestSpanData span);
      intros [=]; membership.
Qed.

(** C5, as amended: with a monitoring span at hand, a truthy HTTP status code
    attribute is written to the span's data under [http.response.status_code]
    and set as the tag [http.status_code]; when the attribute is absent or
    falsy (for instance the number 0), nothing is written under that data key and
    that tag is not set. *)
Theorem updateSentrySpan_status_code
    (span : OtelSpan) (request : HttpRequest) (rt : Runtime) (found : SentrySpan) :
  sentrySpans rt !! spanId (spanContext span) = Some found →
  let id := spanId (spanContext span) in
  let rt' := (_updateSentrySpan getRequestSpanData span request rt).2 in
  let statusCode := attr (attributes span) SemanticAttributes.HTTP_STATUS_CODE in
  (truthy statusCode = true →
     span_data rt' id "http.response.status_code" = Some statusCode
     ∧ span_tag rt' id "http.status_code" = Some statusCode
     ∧ (id, SetData "http.response.status_code" statusCode) ∈ calls_since rt rt'
     ∧ (id, SetTag "http.status_code" statusCode) ∈ calls_since rt rt')
  ∧ (truthy statusCode = false →
     ∀ i v, ((i, SetData "http.response.status_code" v) ∉ calls_since rt rt')
            ∧ ((i, SetTag "http.status_code" v) ∉ calls_since rt rt')).
Proof.
  intros Hfound id rt' statusCode.
  destruct (updateSentrySpan_effect span request rt found Hfound) as [Hcalls Hspan].
  fold id rt' in Hcalls, Hspan.
  unfold span_data, span_tag. rewrite Hcalls, Hspan. clear Hcalls Hspan.
  subst statusCode. split.
  - intros Ht. rewrite !elem_of_tagged_calls. unfold expected_span_calls.
    rewrite Ht.
    destruct (isTransaction found && bool_decide (kind span = SERVER));
      destruct (http_query (getRequestSpanData span)) as [[|? ?]|];
      destruct (http_fragment (getRequestSpanData span)) as [[|? ?]|];
      simpl; (split; [by simplify_map_eq|]); (split; [by simplify_map_eq|]);
      split; membership.
  - intros Hf i v. rewrite !elem_of_tagged_calls. unfold expected_span_calls.
    rewrite Hf.
    destruct (isTransaction found && bool_decide (kind span = SERVER));
      destruct (http_query (getRequestSpanData span)) as [[|? ?]|];
      destruct (http_fragment (getRequestSpanData span)) as [[|? ?]|];
      simpl; split; membership.
Qed.

End Enrichment.

Lemma updateSentrySpan_not_found_witness :
  _updateSentrySpan getRequestSpanData_spec query_span get_request
    (empty_runtime (constructor {| breadcrumbs := None; tracing := None |}))
  = (tt, empty_runtime (constructor {| breadcrumbs := None; tracing := None |})).
Proof.
  apply (updateSentrySpan_not_found getRequestSpanData_spec query_span get_request
           (empty_runtime (constructor {| breadcrumbs := None; tracing := None |}))).
  reflexivity.
Defined.

Lemma updateSentrySpan_strips_delimiter_witness :
  span_data (_updateSentrySpan getRequestSpanData_spec query_span get_request
               tracking_runtime).2 "span-1" "http.query" = Some (VString "a=1")
  ∧ span_data (_updateSentrySpan getRequestSpanData_spec fragment_span get_request
                 tracking_runtime).2 "span-1" "http.fragment" = Some (VString "top")
  ∧ ∀ i v, (i, SetData "http.fragment" v) ∉
      calls_since tracking_runtime
        (_updateSentrySpan getRequestSpanData_spec query_span get_request
           tracking_runtime).2.
Proof.
  destruct (updateSentrySpan_strips_delimiter getRequestSpanData_spec query_span
              get_request tracking_runtime blank_span eq_refl) as (Hq & _ & Hnone).
  destruct (updateSentrySpan_strips_delimiter getRequestSpanData_spec fragment_span
              get_request tracking_runtime blank_span eq_refl) as (_ & Hf & _).
  split; [|split].
  - apply (Hq "?"%char "a=1"). reflexivity.
  - apply (Hf "#"%char "top"). reflexivity.
  - apply Hnone. reflexivity.
Defined.

Lemma updateSentrySpan_status_code_witness :
  span_tag (_updateSentrySpan getRequestSpanData_spec ok_status_span get_request
              tracking_runtime).2 "span-1" "http.status_code" = Some (VNumber 200)
  ∧ ∀ i v, (i, SetTag "http.status_code" v) ∉
      calls_since tracking_runtime
        (_updateSentrySpan getRequestSpanData_spec zero_status_span get_request
           tracking_runtime).2.
Proof.
  destruct (updateSentrySpan_status_code getRequestSpanData_spec ok_status_span
              get_request tracking_runtime blank_span eq_refl) as (Hok & _).
  destruct (updateSentrySpan_status_code getRequestSpanData_spec zero_status_span
              get_request tracking_runtime blank_span eq_refl) as (_ & Hzero).
  split.
  - apply Hok. reflexivity.
  - intros i v. apply Hzero. reflexivity.
Defined.

(** C5, as worded, fails for a status code attribute that is present but
    falsy: with [http.status_code = 0] neither the data key nor the tag is
    written. *)
Lemma updateSentrySpan_zero_status_not_written :
  ¬ claimed_status_written
      (_updateSentrySpan getRequestSpanData_spec zero_status_span get_request
         tracking_runtime).2
      zero_status_span.
Proof.
  intros Hclaim.
  destruct (Hclaim (VNumber 0) eq_refl) as [Hdata _].
  vm_compute in Hdata. discriminate.
Qed.

(** ** Breadcrumbs: [_addRequestBreadcrumb] *)

Section Breadcrumbs.

Variable getRequestSpanData : OtelSpan → SanitizedRequestData.

Lemma addRequestBreadcrumb_cases
    (span : OtelSpan) (response : HttpResponse) (rt : Runtime) :
  _addRequestBreadcrumb getRequestSpanData span response rt =
  if negb (_breadcrumbs (this rt)) || bool_decide (kind span ≠ CLIENT) then (tt, rt)
  else
    addBreadcrumb
      {| category := "http";
         crumb_data :=
           obj_spread [("status_code", response_statusCode response)]
                      (record_entries (getRequestSpanData span));
         type := "http" |}
      {| event := "response"; response := response |} rt.
Proof.
  unfold _addRequestBreadcrumb, mbind, M_bind, gets, mret, M_ret.
  by destruct (negb _ || _).
Qed.

Lemma addRequestBreadcrumb_this
    (span : OtelSpan) (response : HttpResponse) (rt : Runtime) :
  this (_addRequestBreadcrumb getRequestSpanData span response rt).2 = this rt.
Proof. rewrite addRequestBreadcrumb_cases. by destruct (negb _ || _). Qed.

(** Spreading a request record over [{status_code}] keeps the status code. *)
Lemma spread_keeps_status_code (v : JSValue) (d : SanitizedRequestData) :
  obj_get "status_code" (obj_spread [("status_code", v)] (record_entries d)) = Some v.
Proof.
  unfold record_entries.
  by destruct (http_query d), (http_fragment d).
Qed.

(** C3: [_addRequestBreadcrumb] does nothing when breadcrumbs are disabled or
    the span's kind is not CLIENT (so for every SERVER span); for a CLIENT span
    with breadcrumbs enabled it emits exactly one breadcrumb, of category
    ["http"] and type ["http"], whose data holds the response's status code
    under [status_code]. *)
Theorem addRequestBreadcrumb_emits
    (span : OtelSpan) (response : HttpResponse) (rt : Runtime) :
  let rt' := (_addRequestBreadcrumb getRequestSpanData span response rt).2 in
  (_breadcrumbs (this rt) = false ∨ kind span ≠ CLIENT →
     rt' = rt ∧ emitted_since rt rt' = [])
  ∧ (_breadcrumbs (this rt) = true → kind span = CLIENT →
     ∃ b, emitted_since rt rt' = [b]
          ∧ category b = "http" ∧ type b = "http"
          ∧ obj_get "status_code" (crumb_data b) = Some (response_statusCode response)).
Proof.
  intros rt'. subst rt'. rewrite addRequestBreadcrumb_cases. split.
  - intros Hoff.
    assert (negb (_breadcrumbs (this rt)) || bool_decide (kind span ≠ CLIENT) = true)
      as ->.
    { destruct Hoff as [-> | Hkind]; [done|].
      rewrite (bool_decide_eq_true_2 _ Hkind). apply orb_true_r. }
    split; [done|]. unfold emitted_since. simpl. by rewrite drop_all.
  - intros -> Hkind. rewrite Hkind. simpl.
    eexists. split; [|split; [|split]].
    + unfold emitted_since. simpl. by rewrite drop_app_length.
    + done.
    + done.
    + apply spread_keeps_status_code.
Qed.

End Breadcrumbs.

Lemma addRequestBreadcrumb_emits_witness :
  emitted_since example_setup
    (_addRequestBreadcrumb getRequestSpanData_spec server_span example_response
       example_setup).2 = []
  ∧ ∃ b, emitted_since example_setup
           (_addRequestBreadcrumb getRequestSpanData_spec example_span example_response
              example_setup).2 = [b]
         ∧ category b = "http" ∧ type b = "http"
         ∧ obj_get "status_code" (crumb_data b) = Some (VNumber 200).
Proof.
  split.
  - apply (addRequestBreadcrumb_emits getRequestSpanData_spec server_span
             example_response example_setup).
    right. discriminate.
  - apply (addRequestBreadcrumb_emits getRequestSpanData_spec example_span
             example_response example_setup); reflexivity.
Defined.

(** C2, as amended: in the end-to-end scenario (configuration
    [{breadcrumbs: true, tracing: true}], a CLIENT span whose request record is
    derived from [http://api.example.com/path?x=1#frag], response status 200)
    one breadcrumb is emitted and its data is the status code followed by the
    fields of the request record as they are, with the leading [?] and [#]
    kept: [http.query] is ["?x=1"] and [http.fragment] is ["#frag"]. *)
Theorem breadcrumb_for_example_url
    (hasTracingEnabled : option ClientOptions → bool)
    (getRequestSpanData : OtelSpan → SanitizedRequestData)
    (span : OtelSpan) (response : HttpResponse) (rt0 : Runtime) :
  kind span = CLIENT →
  getRequestSpanData span = requestRecordOfUrl example_url →
  response_statusCode response = VNumber 200 →
  let rt1 := (setupOnce hasTracingEnabled (instantiate example_options rt0)).2 in
  let rt2 := (_addRequestBreadcrumb getRequestSpanData span response rt1).2 in
  crumb_data <$> emitted_since rt1 rt2 =
  [ [("status_code", VNumber 200); ("url", VString example_url);
     ("http.query", VString "?x=1"); ("http.fragment", VString "#frag")] ].
Proof.
  intros Hkind Hdata Hstatus rt1 rt2. subst rt2.
  rewrite addRequestBreadcrumb_cases.
  assert (_breadcrumbs (this rt1) = true) as ->.
  { subst rt1. rewrite setupOnce_this. done. }
  rewrite Hkind, Hdata, Hstatus. simpl.
  unfold emitted_since. simpl. rewrite drop_app_length. reflexivity.
Qed.

Lemma breadcrumb_for_example_url_witness :
  crumb_data <$>
    emitted_since example_setup
      (_addRequestBreadcrumb getRequestSpanData_spec example_span example_response
         example_setup).2 =
  [ [("status_code", VNumber 200); ("url", VString example_url);
     ("http.query", VString "?x=1"); ("http.fragment", VString "#frag")] ].
Proof.
  apply (breadcrumb_for_example_url (λ _, false) getRequestSpanData_spec example_span
           example_response
           (empty_runtime (constructor example_options)));
    reflexivity.
Defined.

(** C2, as worded, fails: the breadcrumb of the end-to-end scenario does not
    carry the data the specification lists, since the query and the fragment
    keep their delimiters. *)
Lemma breadcrumb_keeps_delimiters :
  crumb_data <$>
    emitted_since example_setup
      (_addRequestBreadcrumb getRequestSpanData_spec example_span example_response
         example_setup).2
  ≠ [claimed_example_data].
Proof. vm_compute. intros H. discriminate H. Qed.

(** ** The cached decision inputs *)

Section Lifetime.

Variable hasTracingEnabled : option ClientOptions → bool.
Variable getRequestSpanData : OtelSpan → SanitizedRequestData.

Lemma fire_this (c : Callback) (rt : Runtime) :
  this (fire getRequestSpanData c rt).2 = this rt.
Proof.
  destruct c as [otelSpan o | span request | span response]; simpl.
  - unfold mbind, M_bind, mret, M_ret.
    pose proof (onSpanEnd_this otelSpan o rt) as H.
    by destruct (_onSpanEnd otelSpan o rt).
  - apply updateSentrySpan_this.
  - apply addRequestBreadcrumb_this.
Qed.

Lemma fire_all_this (cs : list Callback) (rt : Runtime) :
  this (fire_all getRequestSpanData cs rt).2 = this rt.
Proof. unfold fire_all. apply forEach_this. apply fire_this. Qed.

(** The span-end decision depends on the runtime through [this] only. *)
Lemma onSpanEnd_decision (otelSpan : OtelSpan) (o : MutableOptions) (rt rt' : Runtime) :
  this rt = this rt' → (_onSpanEnd otelSpan o rt).1 = (_onSpanEnd otelSpan o rt').1.
Proof.
  intros Heq. rewrite !onSpanEnd_cases, Heq.
  destruct (negb _); [done|].
  destruct (_shouldCreateSpanForRequest _); [|done].
  destruct (getHttpUrl _); [|done].
  by destruct (truthyString _).
Qed.

(** C6: [setupOnce] resolves the tracing flag of a fresh instance from the
    ambient check when the tracing mode is undefined and from the explicit
    boolean otherwise, and settles the filter predicate (the instance's own,
    else the client's); whatever callbacks fire afterwards, both fields keep
    their values, and every span-end decision is the one that would have been
    taken right after setup. *)
Theorem tracing_flag_resolved_once
    (options : HttpOptions) (rt0 : Runtime) (callbacks : list Callback) :
  let fresh := constructor options in
  let clientOptions := getOptions <$> getClient (hub rt0) in
  let rt1 := (setupOnce hasTracingEnabled (instantiate options rt0)).2 in
  let rt2 := (fire_all getRequestSpanData callbacks rt1).2 in
  _shouldCreateSpans (this rt1) =
    match _tracing fresh with
    | None => hasTracingEnabled clientOptions
    | Some explicit => explicit
    end
  ∧ _shouldCreateSpanForRequest (this rt1) =
    match _shouldCreateSpanForRequest fresh with
    | Some own => Some own
    | None =>
        if negb (_breadcrumbs fresh) && bool_decide (_tracing fresh = Some false)
        then None
        else clientOptions ≫= co_shouldCreateSpanForRequest
    end
  ∧ _shouldCreateSpans (this rt2) = _shouldCreateSpans (this rt1)
  ∧ _shouldCreateSpanForRequest (this rt2) = _shouldCreateSpanForRequest (this rt1)
  ∧ ∀ otelSpan mutableOptions,
      (_onSpanEnd otelSpan mutableOptions rt2).1
      = (_onSpanEnd otelSpan mutableOptions rt1).1.
Proof.
  intros fresh clientOptions rt1 rt2.
  assert (this rt2 = this rt1) as Hsame by apply fire_all_this.
  split; [apply setupOnce_resolves|].
  split.
  - subst rt1 fresh. rewrite setupOnce_this.
    destruct options as [[[]|] [[[]|[[own|]]]|]]; done.
  - rewrite Hsame. split; [done|]. split; [done|].
    intros otelSpan o. by apply onSpanEnd_decision.
Qed.

(** C10: when the [tracing] option is an object, with or without a filter
    predicate, the constructor stores the tracing mode [true]; after setup the
    resolved flag is [true] whatever the ambient check says, and a span that
    [_onSpanEnd] drops is dropped because the filter predicate rejected its
    URL. *)
Theorem tracing_object_enables_spans
    (o : TracingOptions) (b : option bool) (rt0 : Runtime) :
  let options := {| breadcrumbs := b; tracing := Some (TracingObject o) |} in
  let rt1 := (setupOnce hasTracingEnabled (instantiate options rt0)).2 in
  _tracing (constructor options) = Some true
  ∧ _shouldCreateSpans (this rt1) = true
  ∧ ∀ otelSpan,
      drop (_onSpanEnd otelSpan {| drop := false |} rt1).1 = true →
      ∃ predicate u,
        _shouldCreateSpanForRequest (this rt1) = Some predicate
        ∧ getHttpUrl (attributes otelSpan) = Some u
        ∧ predicate u = false.
Proof.
  intros options rt1.
  assert (_shouldCreateSpans (this rt1) = true) as Hon.
  { subst rt1. by rewrite setupOnce_resolves. }
  split; [done|]. split; [done|].
  intros otelSpan Hdrop.
  apply (onSpanEnd_drops rt1 otelSpan) in Hdrop.
  destruct Hdrop as [Hoff | (predicate & u & Hp & Hu & _ & Hk)]; [congruence|].
  exists predicate, u. by rewrite getHttpUrl_Some.
Qed.

End Lifetime.

Lemma tracing_object_enables_spans_witness :
  ∃ predicate u,
    _shouldCreateSpanForRequest (this filtering_runtime) = Some predicate
    ∧ getHttpUrl (attributes healthz_span) = Some u
    ∧ predicate u = false.
Proof.
  apply (tracing_object_enables_spans (λ _, false)
           {| shouldCreateSpanForRequest := Some reject_all |} None
           (empty_runtime (constructor {| breadcrumbs := None; tracing := None |}))).
  reflexivity.
Defined.

(** ** The request filters handed to the instrumentation *)

Section Filters.

Variable isSentryRequestUrl : string → Hub → bool.
Variable getRequestUrl : ClientRequest → option string.
Variable toUpperCase : string → string.

(** C8: the incoming-request filter answers true exactly when the request has
    a method whose upper-case form is OPTIONS or HEAD; the outgoing-request
    filter answers true exactly when a (non-empty) URL is extracted from the
    request and that URL is one of the monitoring system's own endpoint for the
    current hub, and answers false when no URL is extracted. *)
Theorem ignore_hooks
    (incoming : IncomingMessage) (outgoing : ClientRequest) (rt : Runtime) :
  (ignoreIncomingRequestHook toUpperCase incoming = true ↔
     ∃ m, method incoming = Some m
          ∧ (toUpperCase m = "OPTIONS" ∨ toUpperCase m = "HEAD"))
  ∧ ((ignoreOutgoingRequestHook isSentryRequestUrl getRequestUrl outgoing rt).1 = true ↔
     ∃ u, getRequestUrl outgoing = Some u ∧ u ≠ ""
          ∧ isSentryRequestUrl u (hub rt) = true)
  ∧ (getRequestUrl outgoing = None →
     (ignoreOutgoingRequestHook isSentryRequestUrl getRequestUrl outgoing rt).1 = false).
Proof.
  split; [|split].
  - unfold ignoreIncomingRequestHook.
    destruct (method incoming) as [m|]; simpl.
    + destruct (bool_decide (Some (toUpperCase m) = Some "OPTIONS")) eqn:Ho;
        [| destruct (bool_decide (Some (toUpperCase m) = Some "HEAD")) eqn:Hh ]; simpl.
      * apply bool_decide_eq_true_1 in Ho. split; [|done].
        intros _. exists m. split; [done|]. left. congruence.
      * apply bool_decide_eq_true_1 in Hh. split; [|done].
        intros _. exists m. split; [done|]. right. congruence.
      * apply bool_decide_eq_false_1 in Ho, Hh. split; [done|].
        intros (m' & [= <-] & [Hm | Hm]); rewrite Hm in *; congruence.
    + split; [done|]. intros (m & Hm & _). discriminate.
  - unfold ignoreOutgoingRequestHook.
    destruct (getRequestUrl outgoing) as [u|]; simpl.
    + destruct (truthyString u) eqn:Ht; simpl.
      * apply truthyString_true in Ht. split.
        -- intros Hs. by exists u.
        -- by intros (u' & [= <-] & _ & Hs).
      * split; [done|]. intros (u' & [= <-] & Hne & _).
        apply truthyString_true in Hne. congruence.
    + split; [done|]. intros (u & Hu & _). discriminate.
  - intros Hnone. unfold ignoreOutgoingRequestHook. by rewrite Hnone.
Qed.

End Filters.

Lemma ignore_hooks_witness :
  (ignoreOutgoingRequestHook (λ _ _, true) (λ _, None) some_client_request
     tracking_runtime).1 = false.
Proof.
  apply (ignore_hooks (λ _ _, true) (λ _, None) toUpperCase_ascii options_request
           some_client_request tracking_runtime).
  reflexivity.
Defined.

(** ** Runs on concrete inputs *)

Example ignoreIncoming_options :
  ignoreIncomingRequestHook toUpperCase_ascii options_request = true.
Proof. reflexivity. Qed.

Example ignoreIncoming_get :
  ignoreIncomingRequestHook toUpperCase_ascii
    {| method := Some "GET"; statusCode := None |} = false.
Proof. reflexivity. Qed.

Example ignoreIncoming_no_method :
  ignoreIncomingRequestHook toUpperCase_ascii
    {| method := None; statusCode := None |} = false.
Proof. reflexivity. Qed.

Example onSpanEnd_healthz_dropped :
  _onSpanEnd healthz_span {| drop := false |} filtering_runtime
  = ({| drop := true |},
     (call_predicate reject_all "http://svc/healthz" filtering_runtime).2).
Proof. reflexivity. Qed.

Example updateSentrySpan_query_calls :
  spanCalls (_updateSentrySpan getRequestSpanData_spec query_span get_request
               tracking_runtime).2
  = [("span-1", SetOrigin "auto.http.otel.http");
     ("span-1", SetData "url" (VString "http://svc/items?a=1"));
     ("span-1", SetData "http.query" (VString "a=1"))].
Proof. reflexivity. Qed.

Example updateSentrySpan_status_calls :
  spanCalls (_updateSentrySpan getRequestSpanData_spec ok_status_span get_request
               tracking_runtime).2
  = [("span-1", SetOrigin "auto.http.otel.http");
     ("span-1", SetTag "http.status_code" (VNumber 200));
     ("span-1", SetData "url" (VString ""));
     ("span-1", SetData "http.response.status_code" (VNumber 200))].
Proof. reflexivity. Qed.

Example requestRecord_example :
  requestRecordOfUrl example_url
  = {| url := example_url; http_query := Some "?x=1"; http_fragment := Some "#frag" |}.
Proof. reflexivity. Qed.

(** * Further properties *)

(** ** Span admission *)

(** X1: [_onSpanEnd] never clears [drop]: the outgoing value is the incoming
    one or-ed with the decision taken for a span that came in undropped. *)
Theorem onSpanEnd_never_undrops (rt : Runtime) (otelSpan : OtelSpan) (o : MutableOptions) :
  drop (_onSpanEnd otelSpan o rt).1
  = drop o || drop (_onSpanEnd otelSpan {| drop := false |} rt).1.
Proof.
  rewrite !onSpanEnd_cases.
  destruct (negb _); simpl; [by rewrite orb_true_r|].
  destruct (_shouldCreateSpanForRequest (this rt)) as [predicate|];
    [|by rewrite orb_false_r].
  destruct (getHttpUrl (attributes otelSpan)) as [u|]; [|by rewrite orb_false_r].
  destruct (truthyString u); simpl; [|by rewrite orb_false_r].
  destruct (negb (predicate u)); simpl; by rewrite ?orb_true_r, ?orb_false_r.
Qed.

(** What [_onSpanEnd] does to the runtime. *)
Lemma onSpanEnd_outside (rt : Runtime) (otelSpan : OtelSpan) (o : MutableOptions) :
  let rt' := (_onSpanEnd otelSpan o rt).2 in
  this rt' = this rt ∧ hub rt' = hub rt ∧ listeners rt' = listeners rt
  ∧ sentrySpans rt' = sentrySpans rt ∧ spanCalls rt' = spanCalls rt
  ∧ breadcrumbLog rt' = breadcrumbLog rt
  ∧ (predicate_calls_since rt rt' = []
     ∨ ∃ u, getHttpUrl (attributes otelSpan) = Some u ∧ u ≠ ""
            ∧ predicate_calls_since rt rt' = [u]).
Proof.
  intros rt'. subst rt'. rewrite onSpanEnd_cases. unfold predicate_calls_since.
  assert (skipn (length (predicateCalls rt)) (predicateCalls rt) = []) as Hnil
    by apply drop_all.
  destruct (negb _); simpl; [by repeat split; try left|].
  destruct (_shouldCreateSpanForRequest (this rt)) as [predicate|];
    [|by repeat split; try left].
  destruct (getHttpUrl (attributes otelSpan)) as [u|]; [|by repeat split; try left].
  destruct (truthyString u) eqn:Ht; simpl; [|by repeat split; try left].
  repeat split. right. exists u. split; [done|].
  split; [by apply truthyString_true|]. apply drop_app_length.
Qed.

(** X2: [_onSpanEnd] leaves the instance, the hub, the listeners, the
    monitoring spans and the breadcrumbs alone; it calls the filter predicate at
    most once, and then with the span's HTTP URL, which is not empty. *)
Theorem onSpanEnd_frame (rt : Runtime) (otelSpan : OtelSpan) (o : MutableOptions) :
  let rt' := (_onSpanEnd otelSpan o rt).2 in
  this rt' = this rt ∧ hub rt' = hub rt ∧ listeners rt' = listeners rt
  ∧ sentrySpans rt' = sentrySpans rt ∧ spanCalls rt' = spanCalls rt
  ∧ breadcrumbLog rt' = breadcrumbLog rt
  ∧ (predicate_calls_since rt rt' = []
     ∨ ∃ u, getHttpUrl (attributes otelSpan) = Some u ∧ u ≠ ""
            ∧ predicate_calls_since rt rt' = [u]).
Proof. apply onSpanEnd_outside. Qed.

(** X3: an instance that was constructed but not set up drops every span,
    whatever its options, and does not call the filter predicate. *)
Theorem onSpanEnd_before_setup
    (options : HttpOptions) (rt : Runtime) (otelSpan : OtelSpan) (o : MutableOptions) :
  _onSpanEnd otelSpan o (instantiate options rt)
  = ({| drop := true |}, instantiate options rt).
Proof. by rewrite onSpanEnd_cases. Qed.

(** X4: with tracing enabled, a span whose HTTP URL attribute is not a string
    (absent, a number, a boolean, an array) passes [_onSpanEnd] untouched: the
    filter predicate is not consulted and the runtime stays as it was. *)
Theorem onSpanEnd_non_string_url_kept
    (rt : Runtime) (otelSpan : OtelSpan) (o : MutableOptions) :
  _shouldCreateSpans (this rt) = true →
  (∀ u, attributes otelSpan !! SemanticAttributes.HTTP_URL ≠ Some (VString u)) →
  _onSpanEnd otelSpan o rt = (o, rt).
Proof.
  intros Hon Hnot. rewrite onSpanEnd_cases, Hon. simpl.
  destruct (_shouldCreateSpanForRequest (this rt)); [|done].
  destruct (getHttpUrl (attributes otelSpan)) as [u|] eqn:Hu; [|done].
  apply getHttpUrl_Some in Hu. by destruct (Hnot u).
Qed.

Lemma onSpanEnd_non_string_url_kept_witness :
  _onSpanEnd number_url_span {| drop := false |} filtering_runtime
  = ({| drop := false |}, filtering_runtime).
Proof.
  apply (onSpanEnd_non_string_url_kept filtering_runtime number_url_span
           {| drop := false |}).
  - reflexivity.
  - intros u Hu. vm_compute in Hu. discriminate Hu.
Defined.

(** ** Setup *)

Section SetupMore.

Variable hasTracingEnabled : option ClientOptions → bool.

(** [setupOnce] in one piece. *)
Lemma setupOnce_cases (rt : Runtime) :
  setupOnce hasTracingEnabled rt =
  (tt,
   if nothing_to_track (this rt) then rt
   else
     {| this := this (setupOnce hasTracingEnabled rt).2;
        hub := hub rt;
        listeners :=
          listeners rt ++
          match getClient (hub rt) with
          | Some c => if has_on c then ["otelSpanEnd"] else []
          | None => []
          end;
        sentrySpans := sentrySpans rt; spanCalls := spanCalls rt;
        breadcrumbLog := breadcrumbLog rt; predicateCalls := predicateCalls rt |}).
Proof.
  unfold nothing_to_track, setupOnce, mbind, M_bind, mret, M_ret, gets, modify; simpl.
  destruct (negb _ && _); [done|]. simpl.
  destruct (getClient (hub rt)) as [c|]; [destruct (has_on c)|];
    simpl; rewrite ?app_nil_r; try done; by destruct rt.
Qed.

(** X5: [setupOnce] on a fresh instance registers the instrumentation (leaves
    an unload handle) unless both [breadcrumbs] and [tracing] were given as
    [false]; in that case it changes nothing at all. *)
Theorem setupOnce_registers_unless_disabled (options : HttpOptions) (rt0 : Runtime) :
  let rt1 := (setupOnce hasTracingEnabled (instantiate options rt0)).2 in
  (_unload (this rt1) = true ↔
     ¬ (breadcrumbs options = Some false ∧ tracing options = Some (TracingFlag false)))
  ∧ (breadcrumbs options = Some false → tracing options = Some (TracingFlag false) →
     rt1 = instantiate options rt0).
Proof.
  intros rt1. subst rt1. split.
  - rewrite setupOnce_this.
    destruct options as [[[]|] [[[]|[[own|]]]|]]; simpl;
      split; try done; try (intros _; intros [? ?]; congruence).
    intros H. destruct H. done.
  - intros Hb Ht. rewrite setupOnce_cases. simpl.
    destruct options as [b t]. simpl in Hb, Ht. by subst b t.
Qed.

(** What [setupOnce] does outside the instance. *)
Lemma setupOnce_outside (rt : Runtime) :
  let rt1 := (setupOnce hasTracingEnabled rt).2 in
  listeners rt1 =
    listeners rt ++
    (if nothing_to_track (this rt) then []
     else match getClient (hub rt) with
          | Some c => if has_on c then ["otelSpanEnd"] else []
          | None => []
          end)
  ∧ hub rt1 = hub rt ∧ sentrySpans rt1 = sentrySpans rt
  ∧ spanCalls rt1 = spanCalls rt ∧ breadcrumbLog rt1 = breadcrumbLog rt
  ∧ predicateCalls rt1 = predicateCalls rt.
Proof.
  intros rt1. subst rt1. rewrite setupOnce_cases. simpl.
  destruct (nothing_to_track (this rt)); simpl; [by rewrite app_nil_r|done].
Qed.

(** X6: [setupOnce] subscribes to ["otelSpanEnd"] exactly when it does not
    return early and the hub has a client that offers [on]; it leaves the hub,
    the monitoring spans and the logs as they were. *)
Theorem setupOnce_listener (rt : Runtime) :
  let rt1 := (setupOnce hasTracingEnabled rt).2 in
  listeners rt1 =
    listeners rt ++
    (if nothing_to_track (this rt) then []
     else match getClient (hub rt) with
          | Some c => if has_on c then ["otelSpanEnd"] else []
          | None => []
          end)
  ∧ hub rt1 = hub rt ∧ sentrySpans rt1 = sentrySpans rt
  ∧ spanCalls rt1 = spanCalls rt ∧ breadcrumbLog rt1 = breadcrumbLog rt
  ∧ predicateCalls rt1 = predicateCalls rt.
Proof. apply setupOnce_outside. Qed.

(** X7: running [setupOnce] a second time resolves the same decision inputs as
    the first run: the tracing flag and the filter predicate keep their values,
    so every span-end decision is the same; the ["otelSpanEnd"] subscription is
    made once more. (The second run also registers the instrumentation again and
    stores a new unload handle; nothing is stated about the handle.) *)
Theorem setupOnce_twice_same_decisions (rt : Runtime) :
  let rt1 := (setupOnce hasTracingEnabled rt).2 in
  let rt2 := (setupOnce hasTracingEnabled rt1).2 in
  _shouldCreateSpans (this rt2) = _shouldCreateSpans (this rt1)
  ∧ _shouldCreateSpanForRequest (this rt2) = _shouldCreateSpanForRequest (this rt1)
  ∧ (∀ otelSpan o, (_onSpanEnd otelSpan o rt2).1 = (_onSpanEnd otelSpan o rt1).1)
  ∧ listeners rt2 = listeners rt1 ++ skipn (length (listeners rt)) (listeners rt1).
Proof.
  intros rt1 rt2.
  assert (hub rt1 = hub rt) as Hhub by apply (setupOnce_outside rt).
  assert (nothing_to_track (this rt1) = nothing_to_track (this rt)) as Hguard.
  { subst rt1. rewrite setupOnce_this. fold (nothing_to_track (this rt)).
    destruct (nothing_to_track (this rt)) eqn:Hg; [done | exact Hg]. }
  assert (_shouldCreateSpans (this rt2) = _shouldCreateSpans (this rt1)
          ∧ _shouldCreateSpanForRequest (this rt2)
            = _shouldCreateSpanForRequest (this rt1)) as [Hflag Hpred].
  { subst rt2. rewrite (setupOnce_this _ rt1).
    fold (nothing_to_track (this rt1)). rewrite Hguard, Hhub.
    destruct (nothing_to_track (this rt)) eqn:Hg; [done|].
    subst rt1. rewrite setupOnce_this. fold (nothing_to_track (this rt)).
    rewrite Hg. simpl. split; [done|].
    destruct (_shouldCreateSpanForRequest (this rt)); [done|].
    by destruct ((getOptions <$> getClient (hub rt)) ≫= co_shouldCreateSpanForRequest). }
  split; [done|]. split; [done|]. split.
  - intros otelSpan o. rewrite !onSpanEnd_cases, Hflag, Hpred.
    destruct (negb _); [done|].
    destruct (_shouldCreateSpanForRequest (this rt1)); [|done].
    destruct (getHttpUrl _); [|done].
    by destruct (truthyString _).
  - subst rt2.
    pose proof (setupOnce_outside rt1) as [H2 _]. simpl in H2. rewrite H2.
    pose proof (setupOnce_outside rt) as [Hl _]. simpl in Hl. fold rt1 in Hl.
    rewrite Hguard, Hhub. f_equal. rewrite Hl. by rewrite drop_app_length.
Qed.

(** X8: with [tracing: false] every span is dropped after setup, whatever the
    ambient tracing check and the client's options say, and the filter predicate
    is never called. *)
Theorem tracing_false_drops_every_span
    (b : option bool) (rt0 : Runtime) (otelSpan : OtelSpan) (o : MutableOptions) :
  let options := {| breadcrumbs := b; tracing := Some (TracingFlag false) |} in
  let rt1 := (setupOnce hasTracingEnabled (instantiate options rt0)).2 in
  _onSpanEnd otelSpan o rt1 = ({| drop := true |}, rt1).
Proof.
  intros options rt1. rewrite onSpanEnd_cases.
  assert (_shouldCreateSpans (this rt1) = false) as ->; [|done].
  subst rt1. by rewrite setupOnce_resolves.
Qed.

End SetupMore.

Lemma setupOnce_registers_unless_disabled_witness :
  (setupOnce (λ _, true) (instantiate all_off_options (client_runtime (constructor all_off_options)))).2
  = instantiate all_off_options (client_runtime (constructor all_off_options)).
Proof.
  apply (setupOnce_registers_unless_disabled (λ _, true) all_off_options
           (client_runtime (constructor all_off_options))); reflexivity.
Defined.

(** ** Enrichment *)

Ltac split_guards found span data :=
  unfold expected_span_calls;
  destruct (isTransaction found && bool_decide (kind span = SERVER));
  destruct (truthy (attr (attributes span) SemanticAttributes.HTTP_STATUS_CODE));
  destruct (http_query data) as [[|? ?]|];
  destruct (http_fragment data) as [[|? ?]|];
  simpl.

Ltac in_calls :=
  repeat (rewrite ?elem_of_cons, ?elem_of_nil);
  intuition (subst; congruence).

Section EnrichmentMore.

Variable getRequestSpanData : OtelSpan → SanitizedRequestData.

(** Without a monitoring span the hook returns at once. *)
Lemma updateSentrySpan_missing
    (span : OtelSpan) (request : HttpRequest) (rt : Runtime) :
  sentrySpans rt !! spanId (spanContext span) = None →
  _updateSentrySpan getRequestSpanData span request rt = (tt, rt).
Proof.
  intros Hnone.
  unfold _updateSentrySpan, _INTERNAL_getSentrySpan, mbind, M_bind, gets.
  by rewrite Hnone.
Qed.

(** X9: with a monitoring span at hand, [_updateSentrySpan] first marks it
    with the origin [auto.http.otel.http] and always writes the record's URL
    under [url]; whether the span is a transaction does not change. *)
Theorem updateSentrySpan_origin_and_url
    (span : OtelSpan) (request : HttpRequest) (rt : Runtime) (found : SentrySpan) :
  sentrySpans rt !! spanId (spanContext span) = Some found →
  let id := spanId (spanContext span) in
  let rt' := (_updateSentrySpan getRequestSpanData span request rt).2 in
  head (calls_since rt rt') = Some (id, SetOrigin "auto.http.otel.http")
  ∧ origin <$> sentrySpans rt' !! id = Some (Some "auto.http.otel.http")
  ∧ isTransaction <$> sentrySpans rt' !! id = Some (isTransaction found)
  ∧ span_data rt' id "url" = Some (VString (url (getRequestSpanData span))).
Proof.
  intros Hfound id rt'.
  destruct (updateSentrySpan_effect getRequestSpanData span request rt found Hfound)
    as [Hcalls Hspan].
  fold id rt' in Hcalls, Hspan.
  unfold span_data. rewrite Hcalls, Hspan. clear Hcalls Hspan.
  split; [done|].
  split_guards found span (getRequestSpanData span);
    (split; [done|]); (split; [done|]); by simplify_map_eq.
Qed.

(** X10: the raw request is attached as metadata exactly when the monitoring
    span is a transaction and the span's kind is SERVER, and then it is the
    request the hook was called with. *)
Theorem updateSentrySpan_metadata_iff
    (span : OtelSpan) (request r : HttpRequest) (rt : Runtime) (found : SentrySpan) :
  sentrySpans rt !! spanId (spanContext span) = Some found →
  let id := spanId (spanContext span) in
  let rt' := (_updateSentrySpan getRequestSpanData span request rt).2 in
  (id, SetMetadata r) ∈ calls_since rt rt'
  ↔ isTransaction found = true ∧ kind span = SERVER ∧ r = request.
Proof.
  intros Hfound id rt'.
  destruct (updateSentrySpan_effect getRequestSpanData span request rt found Hfound)
    as [Hcalls _].
  fold id rt' in Hcalls. rewrite Hcalls, elem_of_tagged_calls. clear Hcalls.
  unfold expected_span_calls.
  destruct (isTransaction found); simpl; [case_bool_decide as Hk|];
    destruct (truthy (attr (attributes span) SemanticAttributes.HTTP_STATUS_CODE));
    destruct (http_query (getRequestSpanData span)) as [[|? ?]|];
    destruct (http_fragment (getRequestSpanData span)) as [[|? ?]|];
    simpl; in_calls.
Qed.

(** What [_updateSentrySpan] does to the runtime. *)
Lemma updateSentrySpan_outside
    (span : OtelSpan) (request : HttpRequest) (rt : Runtime) :
  let id := spanId (spanContext span) in
  let rt' := (_updateSentrySpan getRequestSpanData span request rt).2 in
  this rt' = this rt ∧ hub rt' = hub rt ∧ listeners rt' = listeners rt
  ∧ breadcrumbLog rt' = breadcrumbLog rt ∧ predicateCalls rt' = predicateCalls rt
  ∧ dom (sentrySpans rt') = dom (sentrySpans rt)
  ∧ (∀ other, other ≠ id → sentrySpans rt' !! other = sentrySpans rt !! other)
  ∧ (∀ i c, (i, c) ∈ calls_since rt rt' → i = id).
Proof.
  intros id rt'.
  destruct (sentrySpans rt !! id) as [found|] eqn:Hfound.
  - pose proof (updateSentrySpan_effect getRequestSpanData span request rt found Hfound)
      as [Hcalls _].
    fold id rt' in Hcalls. rewrite Hcalls.
    assert (rt' = (perform_all id
              (expected_span_calls (getRequestSpanData span) span request found) rt).2)
      as Hrt.
    { subst rt'. by rewrite (updateSentrySpan_found _ _ _ _ _ Hfound). }
    rewrite perform_all_spec in Hrt. clearbody rt'. subst rt'.
    split_and!; try done.
    + apply dom_alter_L.
    + intros other Hne. cbn [sentrySpans snd]. by rewrite lookup_alter_ne.
    + intros i c. rewrite elem_of_tagged_calls. by intros [-> _].
  - assert (_updateSentrySpan getRequestSpanData span request rt = (tt, rt)) as Heq.
    { by apply updateSentrySpan_missing. }
    subst rt'. rewrite Heq. cbn [snd]. split_and!; try done.
    intros i c. unfold calls_since. rewrite drop_all. by intros Hin%elem_of_nil.
Qed.

(** X11: [_updateSentrySpan] touches nothing but the monitoring span found
    under the span's own id: the instance, the hub, the listeners, the
    breadcrumbs and the predicate log stay, no span is added or removed, every
    other span is unchanged, and every call it makes is on that id. *)
Theorem updateSentrySpan_frame
    (span : OtelSpan) (request : HttpRequest) (rt : Runtime) :
  let id := spanId (spanContext span) in
  let rt' := (_updateSentrySpan getRequestSpanData span request rt).2 in
  this rt' = this rt ∧ hub rt' = hub rt ∧ listeners rt' = listeners rt
  ∧ breadcrumbLog rt' = breadcrumbLog rt ∧ predicateCalls rt' = predicateCalls rt
  ∧ dom (sentrySpans rt') = dom (sentrySpans rt)
  ∧ (∀ other, other ≠ id → sentrySpans rt' !! other = sentrySpans rt !! other)
  ∧ (∀ i c, (i, c) ∈ calls_since rt rt' → i = id).
Proof. apply updateSentrySpan_outside. Qed.

(** X12: with a monitoring span at hand, the data keys [_updateSentrySpan]
    writes start with [url], are written once each, and are among [url],
    [http.response.status_code], [http.query] and [http.fragment]. *)
Theorem updateSentrySpan_data_keys
    (span : OtelSpan) (request : HttpRequest) (rt : Runtime) (found : SentrySpan) :
  sentrySpans rt !! spanId (spanContext span) = Some found →
  let rt' := (_updateSentrySpan getRequestSpanData span request rt).2 in
  let keys := data_keys (calls_since rt rt') in
  head keys = Some "url"
  ∧ NoDup keys
  ∧ ∀ key, key ∈ keys →
      key ∈ ["url"; "http.response.status_code"; "http.query"; "http.fragment"].
Proof.
  intros Hfound rt' keys.
  destruct (updateSentrySpan_effect getRequestSpanData span request rt found Hfound)
    as [Hcalls _].
  fold rt' in Hcalls. subst keys. rewrite Hcalls. clear Hcalls. unfold data_keys.
  split_guards found span (getRequestSpanData span);
    (split; [done|]); (split; [by apply (bool_decide_unpack _)|]);
    intros key; repeat (rewrite ?elem_of_cons, ?elem_of_nil); tauto.
Qed.

(** X13: a value is written under [http.query] exactly when the request record
    has a non-empty query (an absent or empty one leads to no write), and
    likewise for [http.fragment]. *)
Theorem updateSentrySpan_writes_query_iff
    (span : OtelSpan) (request : HttpRequest) (rt : Runtime) (found : SentrySpan) :
  sentrySpans rt !! spanId (spanContext span) = Some found →
  let id := spanId (spanContext span) in
  let rt' := (_updateSentrySpan getRequestSpanData span request rt).2 in
  ((∃ v, (id, SetData "http.query" v) ∈ calls_since rt rt')
   ↔ ∃ q, http_query (getRequestSpanData span) = Some q ∧ q ≠ "")
  ∧ ((∃ v, (id, SetData "http.fragment" v) ∈ calls_since rt rt')
     ↔ ∃ f, http_fragment (getRequestSpanData span) = Some f ∧ f ≠ "").
Proof.
  intros Hfound id rt'.
  destruct (updateSentrySpan_effect getRequestSpanData span request rt found Hfound)
    as [Hcalls _].
  fold id rt' in Hcalls. rewrite Hcalls. clear Hcalls.
  setoid_rewrite elem_of_tagged_calls.
  split; split_guards found span (getRequestSpanData span); split;
    first
      [ by intros (q & Hq & Hne); congruence
      | by intros (v & _ & Hin); revert Hin;
           repeat (rewrite ?elem_of_cons, ?elem_of_nil); intuition congruence
      | by intros _; eexists; split; [reflexivity | discriminate]
      | intros _; eexists; split; [done|];
        repeat (rewrite ?elem_of_cons); eauto 10 ].
Qed.

End EnrichmentMore.

Lemma updateSentrySpan_frame_witness :
  sentrySpans (_updateSentrySpan getRequestSpanData_spec query_span get_request
                 tracking_runtime).2 !! "span-2"
  = sentrySpans tracking_runtime !! "span-2".
Proof.
  apply (updateSentrySpan_frame getRequestSpanData_spec query_span get_request tracking_runtime).
  discriminate.
Defined.


Lemma updateSentrySpan_origin_and_url_witness :
  origin <$> sentrySpans (_updateSentrySpan getRequestSpanData_spec query_span
                            get_request tracking_runtime).2 !! "span-1"
  = Some (Some "auto.http.otel.http").
Proof.
  apply (updateSentrySpan_origin_and_url getRequestSpanData_spec query_span get_request
           tracking_runtime blank_span).
  reflexivity.
Defined.

Lemma updateSentrySpan_metadata_iff_witness :
  ("span-1", SetMetadata get_request) ∈
    calls_since tracked_transaction_runtime
      (_updateSentrySpan getRequestSpanData_spec server_span get_request
         tracked_transaction_runtime).2.
Proof.
  eapply (updateSentrySpan_metadata_iff getRequestSpanData_spec server_span get_request
            get_request tracked_transaction_runtime).
  - reflexivity.
  - split; [reflexivity|]. split; reflexivity.
Defined.

Lemma updateSentrySpan_data_keys_witness :
  NoDup (data_keys (calls_since tracking_runtime
           (_updateSentrySpan getRequestSpanData_spec query_span get_request
              tracking_runtime).2)).
Proof.
  apply (updateSentrySpan_data_keys getRequestSpanData_spec query_span get_request
           tracking_runtime blank_span).
  reflexivity.
Defined.

Lemma updateSentrySpan_writes_query_iff_witness :
  ∃ v, ("span-1", SetData "http.query" v) ∈
    calls_since tracking_runtime
      (_updateSentrySpan getRequestSpanData_spec query_span get_request
         tracking_runtime).2.
Proof.
  apply (updateSentrySpan_writes_query_iff getRequestSpanData_spec query_span get_request
           tracking_runtime blank_span).
  - reflexivity.
  - exists "?a=1". split; [reflexivity | discriminate].
Defined.

(** ** Breadcrumbs *)

Section BreadcrumbsMore.

Variable hasTracingEnabled : option ClientOptions → bool.
Variable getRequestSpanData : OtelSpan → SanitizedRequestData.

Lemma spread_record (v : JSValue) (d : SanitizedRequestData) :
  obj_spread [("status_code", v)] (record_entries d)
  = ("status_code", v) :: record_entries d.
Proof. unfold record_entries. by destruct (http_query d), (http_fragment d). Qed.

(** X14: for a CLIENT span with breadcrumbs enabled, [_addRequestBreadcrumb]
    appends one breadcrumb and changes nothing else. Its data lists
    [status_code] and then the fields of the request record as they are (the
    query and the fragment are not stripped, and an undefined status code is
    still listed); the hint carries the event name ["response"] and the
    response object. *)
Theorem addRequestBreadcrumb_data
    (span : OtelSpan) (response : HttpResponse) (rt : Runtime) :
  _breadcrumbs (this rt) = true →
  kind span = CLIENT →
  _addRequestBreadcrumb getRequestSpanData span response rt =
  (tt,
   {| this := this rt; hub := hub rt; listeners := listeners rt;
      sentrySpans := sentrySpans rt; spanCalls := spanCalls rt;
      breadcrumbLog :=
        breadcrumbLog rt ++
        [({| category := "http";
             crumb_data :=
               ("status_code", response_statusCode response)
               :: record_entries (getRequestSpanData span);
             type := "http" |},
          {| event := "response"; response := response |})];
      predicateCalls := predicateCalls rt |}).
Proof.
  intros Hon Hkind.
  by rewrite addRequestBreadcrumb_cases, Hon, Hkind, spread_record.
Qed.

(** X15: breadcrumbs do not depend on tracing: with [tracing: false] and
    breadcrumbs not switched off, after setup a CLIENT span is dropped at its
    end and yet its response emits one breadcrumb. *)
Theorem breadcrumbs_survive_tracing_off
    (b : option bool) (rt0 : Runtime) (span : OtelSpan) (response : HttpResponse)
    (o : MutableOptions) :
  b ≠ Some false →
  kind span = CLIENT →
  let options := {| breadcrumbs := b; tracing := Some (TracingFlag false) |} in
  let rt1 := (setupOnce hasTracingEnabled (instantiate options rt0)).2 in
  drop (_onSpanEnd span o rt1).1 = true
  ∧ length (emitted_since rt1
              (_addRequestBreadcrumb getRequestSpanData span response rt1).2) = 1.
Proof.
  intros Hb Hkind options rt1.
  assert (this rt1 = {| name := Http_id; _unload := true; _breadcrumbs := true;
                        _tracing := Some false; _shouldCreateSpans := false;
                        _shouldCreateSpanForRequest :=
                          (getOptions <$> getClient (hub rt0))
                            ≫= co_shouldCreateSpanForRequest |}) as Hthis.
  { subst rt1 options. rewrite setupOnce_this. by destruct b as [[]|]. }
  split.
  - by rewrite onSpanEnd_cases, Hthis.
  - rewrite addRequestBreadcrumb_cases, Hthis, Hkind. simpl.
    unfold emitted_since. simpl. by rewrite drop_app_length.
Qed.

End BreadcrumbsMore.

Lemma addRequestBreadcrumb_data_witness :
  breadcrumbLog
    (_addRequestBreadcrumb getRequestSpanData_spec example_span example_response
       example_setup).2
  = [({| category := "http";
         crumb_data :=
           ("status_code", VNumber 200)
           :: record_entries (getRequestSpanData_spec example_span);
         type := "http" |},
      {| event := "response"; response := example_response |})].
Proof.
  rewrite (addRequestBreadcrumb_data getRequestSpanData_spec example_span
             example_response example_setup); reflexivity.
Defined.

Lemma breadcrumbs_survive_tracing_off_witness :
  drop (_onSpanEnd example_span {| drop := false |}
          (setupOnce (λ _, true)
             (instantiate {| breadcrumbs := None; tracing := Some (TracingFlag false) |}
                (empty_runtime (constructor example_options)))).2).1 = true.
Proof.
  apply (breadcrumbs_survive_tracing_off (λ _, true) getRequestSpanData_spec None
           (empty_runtime (constructor example_options)) example_span example_response
           {| drop := false |}).
  - discriminate.
  - reflexivity.
Defined.

(** ** Runs of callbacks *)

Section Runs.

Variable hasTracingEnabled : option ClientOptions → bool.
Variable getRequestSpanData : OtelSpan → SanitizedRequestData.

Lemma forEach_cons {A : Type} (f : A → M unit) (x : A) (l : list A) (rt : Runtime) :
  forEach (x :: l) f rt = forEach l f (f x rt).2.
Proof. simpl. unfold mbind, M_bind. by destruct (f x rt). Qed.

Lemma callback_effect_refl (rt : Runtime) : callback_effect 0 rt rt.
Proof.
  unfold callback_effect. split_and!; try done.
  - exists []. by rewrite app_nil_r.
  - exists []. rewrite app_nil_r. by destruct (_breadcrumbs _).
  - exists []. by rewrite app_nil_r.
Qed.

Lemma callback_effect_trans (n m : nat) (rt rt1 rt2 : Runtime) :
  callback_effect n rt rt1 → callback_effect m rt1 rt2 →
  callback_effect (n + m) rt rt2.
Proof.
  intros (Ht & Hh & Hl & Hd & [ks Hs] & (kb & Hb & Hbn) & (kp & Hp & Hpf & Hpo))
         (Ht' & Hh' & Hl' & Hd' & [ks' Hs'] & (kb' & Hb' & Hbn') & (kp' & Hp' & Hpf' & Hpo')).
  rewrite Ht in Hbn', Hpo'.
  unfold callback_effect. split_and!; try congruence.
  - exists (ks ++ ks'). by rewrite Hs', Hs, app_assoc.
  - exists (kb ++ kb'). split; [by rewrite Hb', Hb, app_assoc|].
    rewrite length_app, Hbn, Hbn'. by destruct (_breadcrumbs _).
  - exists (kp ++ kp'). split; [by rewrite Hp', Hp, app_assoc|].
    split; [by apply Forall_app|].
    intros Hoff. by rewrite (Hpo Hoff), (Hpo' Hoff).
Qed.

Lemma fire_effect (c : Callback) (rt : Runtime) :
  callback_effect (if is_client_response c then 1 else 0) rt
    (fire getRequestSpanData c rt).2.
Proof.
  destruct c as [otelSpan o | span request | span response]; simpl.
  - assert ((fire getRequestSpanData (OtelSpanEnd otelSpan o) rt).2
            = (_onSpanEnd otelSpan o rt).2) as Heq.
    { simpl. unfold mbind, M_bind, mret, M_ret. by destruct (_onSpanEnd otelSpan o rt). }
    simpl in Heq. rewrite Heq, onSpanEnd_cases. clear Heq.
    destruct (_shouldCreateSpans (this rt)) eqn:Hon; simpl;
      [|apply callback_effect_refl].
    destruct (_shouldCreateSpanForRequest (this rt)) as [predicate|];
      [|apply callback_effect_refl].
    destruct (getHttpUrl (attributes otelSpan)) as [u|]; [|apply callback_effect_refl].
    destruct (truthyString u) eqn:Ht; [|apply callback_effect_refl].
    unfold callback_effect. simpl. split_and!; try done.
    + exists []. by rewrite app_nil_r.
    + exists []. rewrite app_nil_r. by destruct (_breadcrumbs _).
    + exists [u]. split; [done|]. split; [|congruence].
      constructor; [by apply truthyString_true | constructor].
  - destruct (updateSentrySpan_outside getRequestSpanData span request rt)
      as (Ht & Hh & Hl & Hb & Hp & Hd & _ & _).
    unfold callback_effect. split_and!; try done.
    + destruct (sentrySpans rt !! spanId (spanContext span)) as [found|] eqn:Hfound.
      * rewrite (updateSentrySpan_found _ _ _ _ _ Hfound), perform_all_spec. by eexists.
      * rewrite (updateSentrySpan_missing _ _ _ _ Hfound). exists [].
        by rewrite app_nil_r.
    + exists []. rewrite app_nil_r. split; [done|]. by destruct (_breadcrumbs _).
    + exists []. by rewrite app_nil_r.
  - rewrite addRequestBreadcrumb_cases.
    destruct (_breadcrumbs (this rt)) eqn:Hb; simpl.
    + repeat case_bool_decide; try congruence; simpl.
      * replace 1 with (0 + 1) by done. eapply callback_effect_trans;
          [apply callback_effect_refl|].
        unfold callback_effect. simpl. rewrite Hb. split_and!; try done.
        -- exists []. by rewrite app_nil_r.
        -- by eexists.
        -- exists []. by rewrite app_nil_r.
      * apply callback_effect_refl.
    + destruct (bool_decide (kind span = CLIENT)); unfold callback_effect;
        rewrite Hb; split_and!; try done;
        exists []; by rewrite app_nil_r.
Qed.

Lemma fire_all_effect (cs : list Callback) (rt : Runtime) :
  callback_effect (client_responses cs) rt (fire_all getRequestSpanData cs rt).2.
Proof.
  unfold fire_all. revert rt.
  induction cs as [|c cs IH]; intros rt; [apply callback_effect_refl|].
  rewrite forEach_cons.
  replace (client_responses (c :: cs))
    with ((if is_client_response c then 1 else 0) + client_responses cs)
    by (unfold client_responses; simpl; by destruct (is_client_response c)).
  eapply callback_effect_trans; [apply fire_effect | apply IH].
Qed.

(** X16: whatever callbacks fire, the hub, the listeners and the instance are
    left alone, no monitoring span is added or removed, and the three logs only
    grow at the end. *)
Theorem callbacks_keep_configuration (cs : list Callback) (rt : Runtime) :
  let rt' := (fire_all getRequestSpanData cs rt).2 in
  this rt' = this rt ∧ hub rt' = hub rt ∧ listeners rt' = listeners rt
  ∧ dom (sentrySpans rt') = dom (sentrySpans rt)
  ∧ spanCalls rt `prefix_of` spanCalls rt'
  ∧ breadcrumbLog rt `prefix_of` breadcrumbLog rt'
  ∧ predicateCalls rt `prefix_of` predicateCalls rt'.
Proof.
  intros rt'.
  destruct (fire_all_effect cs rt)
    as (Ht & Hh & Hl & Hd & [ks Hs] & (kb & Hb & _) & (kp & Hp & _)).
  fold rt' in Ht, Hh, Hl, Hd, Hs, Hb, Hp.
  split_and!; try done; by eexists.
Qed.

(** X17: over any run of callbacks the number of breadcrumbs emitted is the
    number of response callbacks for CLIENT spans when breadcrumbs are enabled,
    and zero when they are disabled. *)
Theorem breadcrumb_count (cs : list Callback) (rt : Runtime) :
  length (emitted_since rt (fire_all getRequestSpanData cs rt).2)
  = if _breadcrumbs (this rt) then client_responses cs else 0.
Proof.
  destruct (fire_all_effect cs rt) as (_ & _ & _ & _ & _ & (kb & Hb & Hn) & _).
  unfold emitted_since. by rewrite Hb, drop_app_length, length_fmap.
Qed.

(** X18: over any run of callbacks the filter predicate is never called with an
    empty URL. *)
Theorem predicate_never_sees_empty_url (cs : list Callback) (rt : Runtime) :
  Forall (λ u, u ≠ "")
    (predicate_calls_since rt (fire_all getRequestSpanData cs rt).2).
Proof.
  destruct (fire_all_effect cs rt) as (_ & _ & _ & _ & _ & _ & (kp & Hp & Hf & _)).
  unfold predicate_calls_since. by rewrite Hp, drop_app_length.
Qed.

(** X19: while the resolved tracing flag is off, no run of callbacks calls the
    filter predicate. *)
Theorem tracing_off_never_calls_predicate (cs : list Callback) (rt : Runtime) :
  _shouldCreateSpans (this rt) = false →
  predicateCalls (fire_all getRequestSpanData cs rt).2 = predicateCalls rt.
Proof.
  intros Hoff.
  destruct (fire_all_effect cs rt) as (_ & _ & _ & _ & _ & _ & (kp & Hp & _ & Hk)).
  by rewrite Hp, (Hk Hoff), app_nil_r.
Qed.

(** X20: [unregister] invokes the unload handle exactly when [setupOnce] has
    registered the instrumentation: never on an instance that was only
    constructed, and after setup unless both [breadcrumbs] and [tracing] were
    given as [false]. It leaves the runtime, and so the handle, as it was. *)
Theorem unregister_after_setup (options : HttpOptions) (rt0 : Runtime) :
  let rt1 := (setupOnce hasTracingEnabled (instantiate options rt0)).2 in
  unregister (instantiate options rt0) = (false, instantiate options rt0)
  ∧ (unregister rt1).2 = rt1
  ∧ ((unregister rt1).1 = true ↔
       ¬ (breadcrumbs options = Some false ∧ tracing options = Some (TracingFlag false))).
Proof.
  intros rt1. split; [done|].
  assert (unregister rt1 = (_unload (this rt1), rt1)) as ->.
  { unfold unregister, mbind, M_bind, gets, mret, M_ret.
    by destruct (_unload (this rt1)). }
  split; [done|]. simpl. subst rt1. rewrite setupOnce_this.
  destruct options as [[[]|] [[[]|[[own|]]]|]]; simpl;
    split; try done; try (intros _; intros [? ?]; congruence).
  intros H. destruct H. done.
Qed.

End Runs.

Lemma tracing_off_never_calls_predicate_witness :
  predicateCalls (fire_all getRequestSpanData_spec example_run tracing_off_runtime).2
  = predicateCalls tracing_off_runtime.
Proof.
  apply (tracing_off_never_calls_predicate getRequestSpanData_spec example_run
           tracing_off_runtime).
  reflexivity.
Defined.

Example example_run_emits_one_breadcrumb :
  length (emitted_since example_setup
            (fire_all getRequestSpanData_spec example_run example_setup).2) = 1.
Proof. reflexivity. Qed.

(** ** Which predicate decides *)

Section Precedence.

Variable hasTracingEnabled : option ClientOptions → bool.

(** X21: a predicate given in the [tracing] object decides alone: after setup
    a span that comes in undropped is dropped exactly when its HTTP URL is a
    non-empty string that this predicate rejects, whatever the client's options
    and the ambient tracing check say. *)
Theorem own_predicate_decides
    (own : string → bool) (b : option bool) (rt0 : Runtime) (otelSpan : OtelSpan) :
  let options :=
    {| breadcrumbs := b;
       tracing := Some (TracingObject {| shouldCreateSpanForRequest := Some own |}) |} in
  let rt1 := (setupOnce hasTracingEnabled (instantiate options rt0)).2 in
  drop (_onSpanEnd otelSpan {| drop := false |} rt1).1 = true
  ↔ ∃ u, attributes otelSpan !! SemanticAttributes.HTTP_URL = Some (VString u)
         ∧ u ≠ "" ∧ own u = false.
Proof.
  intros options rt1. rewrite onSpanEnd_drops.
  assert (_shouldCreateSpans (this rt1) = true
          ∧ _shouldCreateSpanForRequest (this rt1) = Some own) as [Hon Hp].
  { subst rt1 options. rewrite setupOnce_this. by destruct b as [[]|]. }
  rewrite Hon, Hp. split.
  - intros [?|(p & u & [= <-] & Hu & Hne & Hk)]; [done|]. by exists u.
  - intros (u & Hu & Hne & Hk). right. by exists own, u.
Qed.

(** X22: without a predicate of its own, an instance with [tracing: true]
    falls back on the client's [shouldCreateSpanForRequest] option: after setup
    a span that comes in undropped is dropped exactly when its HTTP URL is a
    non-empty string that the client's predicate rejects. *)
Theorem client_predicate_is_fallback
    (fallback : string → bool) (c : NodeExperimentalClient) (b : option bool)
    (rt0 : Runtime) (otelSpan : OtelSpan) :
  getClient (hub rt0) = Some c →
  co_shouldCreateSpanForRequest (getOptions c) = Some fallback →
  let options := {| breadcrumbs := b; tracing := Some (TracingFlag true) |} in
  let rt1 := (setupOnce hasTracingEnabled (instantiate options rt0)).2 in
  drop (_onSpanEnd otelSpan {| drop := false |} rt1).1 = true
  ↔ ∃ u, attributes otelSpan !! SemanticAttributes.HTTP_URL = Some (VString u)
         ∧ u ≠ "" ∧ fallback u = false.
Proof.
  intros Hc Hf options rt1. rewrite onSpanEnd_drops.
  assert (_shouldCreateSpans (this rt1) = true
          ∧ _shouldCreateSpanForRequest (this rt1) = Some fallback) as [Hon Hp].
  { subst rt1 options. rewrite setupOnce_this. simpl. rewrite Hc. simpl.
    rewrite Hf. by destruct b as [[]|]. }
  rewrite Hon, Hp. split.
  - intros [?|(p & u & [= <-] & Hu & Hne & Hk)]; [done|]. by exists u.
  - intros (u & Hu & Hne & Hk). right. by exists fallback, u.
Qed.

End Precedence.

Lemma client_predicate_is_fallback_witness :
  drop (_onSpanEnd healthz_span {| drop := false |}
          (setupOnce (λ _, false)
             (instantiate {| breadcrumbs := None; tracing := Some (TracingFlag true) |}
                {| this := constructor example_options;
                   hub := {| getClient := Some filtering_client |};
                   listeners := []; sentrySpans := ∅; spanCalls := [];
                   breadcrumbLog := []; predicateCalls := [] |})).2).1 = true.
Proof.
  apply (client_predicate_is_fallback (λ _, false) reject_all filtering_client None
           {| this := constructor example_options;
              hub := {| getClient := Some filtering_client |};
              listeners := []; sentrySpans := ∅; spanCalls := [];
              breadcrumbLog := []; predicateCalls := [] |} healthz_span).
  - reflexivity.
  - reflexivity.
  - exists "http://svc/healthz". split; [reflexivity|]. split; [discriminate|reflexivity].
Defined.

(** ** The incoming-request filter and letter case *)

Lemma upper_ascii_idempotent (a : ascii) : upper_ascii (upper_ascii a) = upper_ascii a.
Proof. by destruct a as [[] [] [] [] [] [] [] []]. Qed.

Lemma toUpperCase_ascii_idempotent (m : string) :
  toUpperCase_ascii (toUpperCase_ascii m) = toUpperCase_ascii m.
Proof.
  induction m as [|a m IH]; [done|].
  simpl. by rewrite upper_ascii_idempotent, IH.
Qed.

(** X23: the incoming-request filter does not see letter case: for an
    upper-casing function that leaves upper-cased text alone, a request is
    ignored exactly when the same request with its method upper-cased is. *)
Theorem ignoreIncoming_case_insensitive
    (toUpperCase : string → string) (request : IncomingMessage) (m : string) :
  (∀ t, toUpperCase (toUpperCase t) = toUpperCase t) →
  method request = Some m →
  ignoreIncomingRequestHook toUpperCase request
  = ignoreIncomingRequestHook toUpperCase
      {| method := Some (toUpperCase m); statusCode := statusCode request |}.
Proof.
  intros Hidem Hm. unfold ignoreIncomingRequestHook. rewrite Hm. simpl.
  by rewrite Hidem.
Qed.

Lemma ignoreIncoming_case_insensitive_witness :
  ignoreIncomingRequestHook toUpperCase_ascii options_request
  = ignoreIncomingRequestHook toUpperCase_ascii
      {| method := Some "OPTIONS"; statusCode := None |}.
Proof.
  apply (ignoreIncoming_case_insensitive toUpperCase_ascii options_request "options").
  - apply toUpperCase_ascii_idempotent.
  - reflexivity.
Defined.
